(** * Deck-Link: the connection state machine of [deck_link/server.py]

    A shallow embedding of [deck_link/protocol.py] (message envelope,
    message factories) and of [DeckLinkServer] in [deck_link/server.py]
    (handshake handlers, heartbeat loop, connect and disconnect commands),
    followed by the properties of the connection protocol.

    Modelling conventions.
    - A method of [DeckLinkServer] is a computation in the monad [M]: it
      reads and writes a [Machine] (the server object together with the
      part of the outside world it talks to) and either returns or
      raises.  As in Python, what was written before an exception stays
      written.
    - Every transmission in [server.py] has the shape
      [websocket.send(m.to_json())]; the wire trace [sent] keeps the pair
      of the socket and the message [m].
    - [events] keeps every call of [_emit] (the host callback [on_event],
      when one is installed, receives exactly these), [logs] keeps the
      level and the literal text of every logger call, with the
      interpolated values left as written in the f-string.
    - Time is a rational number of seconds.  [time.time()] reads the
      clock [now]; the clock moves only while a task sleeps.
    - A coroutine runs without interleaving up to its next sleep: the
      event loop is single threaded and the sends complete at once. *)

From Stdlib Require Import String Ascii List ZArith QArith Bool Lia Lqa.
Import ListNotations.
Local Open Scope string_scope.
Local Open Scope list_scope.

Set Implicit Arguments.

(* ------------------------------------------------------------------ *)
(** ** protocol.py *)

Module MessageType.

Inductive t : Type :=
| CONNECTION_REQUEST
| CHALLENGE_RESPONSE
| AUTH_ATTEMPT
| AUTH_RESULT
| PING
| PONG
| DISCONNECT
| FILE_TRANSFER
| KEYBOARD_INPUT
| CONTROLLER_INPUT
| AUDIO_STREAM
| NOTIFICATION
| ERROR.

Definition value (x : t) : string :=
  match x with
  | CONNECTION_REQUEST => "connection_request"
  | CHALLENGE_RESPONSE => "challenge_response"
  | AUTH_ATTEMPT => "auth_attempt"
  | AUTH_RESULT => "auth_result"
  | PING => "ping"
  | PONG => "pong"
  | DISCONNECT => "disconnect"
  | FILE_TRANSFER => "file_transfer"
  | KEYBOARD_INPUT => "keyboard_input"
  | CONTROLLER_INPUT => "controller_input"
  | AUDIO_STREAM => "audio_stream"
  | NOTIFICATION => "notification"
  | ERROR => "error"
  end.

Definition eqb (x y : t) : bool :=
  match x, y with
  | CONNECTION_REQUEST, CONNECTION_REQUEST
  | CHALLENGE_RESPONSE, CHALLENGE_RESPONSE
  | AUTH_ATTEMPT, AUTH_ATTEMPT
  | AUTH_RESULT, AUTH_RESULT
  | PING, PING
  | PONG, PONG
  | DISCONNECT, DISCONNECT
  | FILE_TRANSFER, FILE_TRANSFER
  | KEYBOARD_INPUT, KEYBOARD_INPUT
  | CONTROLLER_INPUT, CONTROLLER_INPUT
  | AUDIO_STREAM, AUDIO_STREAM
  | NOTIFICATION, NOTIFICATION
  | ERROR, ERROR => true
  | _, _ => false
  end.

End MessageType.

Module ConnectionState.

Inductive t : Type :=
| DISCONNECTED
| AWAITING_CHALLENGE
| CHALLENGE_SENT
| AWAITING_AUTH_INPUT
| CONNECTED
| ERROR.

Definition value (x : t) : string :=
  match x with
  | DISCONNECTED => "disconnected"
  | AWAITING_CHALLENGE => "awaiting_challenge"
  | CHALLENGE_SENT => "challenge_sent"
  | AWAITING_AUTH_INPUT => "awaiting_auth_input"
  | CONNECTED => "connected"
  | ERROR => "error"
  end.

Definition eqb (x y : t) : bool :=
  match x, y with
  | DISCONNECTED, DISCONNECTED
  | AWAITING_CHALLENGE, AWAITING_CHALLENGE
  | CHALLENGE_SENT, CHALLENGE_SENT
  | AWAITING_AUTH_INPUT, AWAITING_AUTH_INPUT
  | CONNECTED, CONNECTED
  | ERROR, ERROR => true
  | _, _ => false
  end.

End ConnectionState.

(** Values of type [Any]: what a payload or an event dictionary holds. *)
#[warnings="-register-all"]
Inductive Value : Type :=
| VNone
| VBool (b : bool)
| VInt (n : Z)
| VFloat (x : Q)
| VStr (s : string)
| VList (l : list Value)
| VDict (d : list (string * Value)).

(** [dict[str, Any]], in insertion order. *)
Definition Dict : Type := list (string * Value).

(** [d.get(key, default)] *)
Fixpoint dict_get (d : Dict) (key : string) (default : Value) : Value :=
  match d with
  | [] => default
  | (k, v) :: rest => if String.eqb k key then v else dict_get rest key default
  end.

(** [key in d] *)
Fixpoint dict_has (d : Dict) (key : string) : bool :=
  match d with
  | [] => false
  | (k, _) :: rest => if String.eqb k key then true else dict_has rest key
  end.

(** Python truth value, as tested by [if success:]. *)
Definition truthy (v : Value) : bool :=
  match v with
  | VNone => false
  | VBool b => b
  | VInt n => negb (Z.eqb n 0)
  | VFloat x => negb (Qeq_bool x 0)
  | VStr s => negb (String.eqb s "")
  | VList l => match l with [] => false | _ => true end
  | VDict d => match d with [] => false | _ => true end
  end.

Record Message : Type := {
  type : MessageType.t;
  session_id : string;
  timestamp : Q;
  payload : Dict
}.

(* ------------------------------------------------------------------ *)
(** ** server.py: data *)

(** A websocket object, known by its identity. *)
Definition WebSocket : Type := nat.

Record PeerInfo : Type := {
  name : Value;
  ip : Value;
  peer_port : Value;
  websocket : option WebSocket
}.

Record ConnectionSession : Type := {
  cs_session_id : string;
  passphrase : string;
  peer_info : option PeerInfo;
  cs_state : ConnectionState.t
}.

(** A task handed to [asyncio.create_task]. *)
Inductive Task : Type :=
| PingLoop
| ClientListen (ws : WebSocket).

(** The fields of [DeckLinkServer] that the connection protocol uses. *)
Record DeckLinkServer : Type := {
  device_name : string;
  device_type : string;
  port : Z;
  _state : ConnectionState.t;
  _current_session : option ConnectionSession;
  _peer : option PeerInfo;
  _websocket : option WebSocket;
  _ping_task : option nat;
  _last_pong : Q
}.

Inductive Level : Type := DEBUG | INFO | WARNING | LOG_ERROR.

(** Python exceptions.  [ConnectionClosed] is a subclass of [Exception];
    [CancelledError] derives from [BaseException] only. *)
Inductive Exn : Type :=
| ConnectionClosed
| Exception (msg : string)
| CancelledError.

(** [str(e)]; the text the websockets library gives its
    [ConnectionClosed] is left empty. *)
Definition Exn_str (e : Exn) : string :=
  match e with
  | Exception msg => msg
  | _ => ""
  end.

Inductive Result (A : Type) : Type :=
| Return (a : A)
| Raise (e : Exn).
Arguments Return {A} a.
Arguments Raise {A} e.

(** The world around the server object. *)
Record World : Type := {
  now : Q;                                 (* the clock read by time.time() *)
  uuid4 : nat -> string;                   (* the tokens uuid.uuid4() yields *)
  uuid_count : nat;
  generated : nat -> string;               (* what generate_passphrase() yields *)
  generated_count : nat;
  dial : string -> Z -> Result WebSocket;  (* websockets.client.connect *)
  closed : list WebSocket;                 (* sockets on which send raises *)
  sent : list (WebSocket * Message);       (* frames written, oldest first *)
  events : list (string * Dict);           (* calls of _emit, oldest first *)
  logs : list (Level * string);
  tasks : list Task;                       (* tasks created, by task number *)
  cancelled : list nat                     (* task numbers cancelled *)
}.

Record Machine : Type := {
  self : DeckLinkServer;
  world : World
}.

(* ------------------------------------------------------------------ *)
(** ** The monad of server methods *)

Definition M (A : Type) : Type := Machine -> Result A * Machine.

Definition ret {A} (a : A) : M A := fun m => (Return a, m).

Definition bind {A B} (c : M A) (k : A -> M B) : M B :=
  fun m =>
    match c m with
    | (Return a, m') => k a m'
    | (Raise e, m') => (Raise e, m')
    end.

Definition raise {A} (e : Exn) : M A := fun m => (Raise e, m).

Declare Scope py_scope.
Delimit Scope py_scope with py.
Notation "x <- c ;; k" := (bind c (fun x => k))
  (at level 61, c at next level, right associativity) : py_scope.
Notation "c ;; k" := (bind c (fun _ => k))
  (at level 61, right associativity) : py_scope.
Local Open Scope py_scope.

(** [try: body except Exception as e: handler(e)]; a [CancelledError]
    passes through. *)
Definition try_except {A} (body : M A) (handler : Exn -> M A) : M A :=
  fun m =>
    match body m with
    | (Return a, m') => (Return a, m')
    | (Raise CancelledError, m') => (Raise CancelledError, m')
    | (Raise e, m') => handler e m'
    end.

Definition get_self : M DeckLinkServer := fun m => (Return (self m), m).
Definition get_world : M World := fun m => (Return (world m), m).

Definition modify_self (f : DeckLinkServer -> DeckLinkServer) : M unit :=
  fun m => (Return tt, {| self := f (self m); world := world m |}).

Definition modify_world (f : World -> World) : M unit :=
  fun m => (Return tt, {| self := self m; world := f (world m) |}).

(** Field assignment on the server object. *)
Definition with_state (v : ConnectionState.t) (s : DeckLinkServer) : DeckLinkServer :=
  {| device_name := device_name s; device_type := device_type s; port := port s;
     _state := v; _current_session := _current_session s; _peer := _peer s;
     _websocket := _websocket s; _ping_task := _ping_task s;
     _last_pong := _last_pong s |}.

Definition with_current_session (v : option ConnectionSession) (s : DeckLinkServer) : DeckLinkServer :=
  {| device_name := device_name s; device_type := device_type s; port := port s;
     _state := _state s; _current_session := v; _peer := _peer s;
     _websocket := _websocket s; _ping_task := _ping_task s;
     _last_pong := _last_pong s |}.

Definition with_peer (v : option PeerInfo) (s : DeckLinkServer) : DeckLinkServer :=
  {| device_name := device_name s; device_type := device_type s; port := port s;
     _state := _state s; _current_session := _current_session s; _peer := v;
     _websocket := _websocket s; _ping_task := _ping_task s;
     _last_pong := _last_pong s |}.

Definition with_websocket (v : option WebSocket) (s : DeckLinkServer) : DeckLinkServer :=
  {| device_name := device_name s; device_type := device_type s; port := port s;
     _state := _state s; _current_session := _current_session s; _peer := _peer s;
     _websocket := v; _ping_task := _ping_task s;
     _last_pong := _last_pong s |}.

Definition with_ping_task (v : option nat) (s : DeckLinkServer) : DeckLinkServer :=
  {| device_name := device_name s; device_type := device_type s; port := port s;
     _state := _state s; _current_session := _current_session s; _peer := _peer s;
     _websocket := _websocket s; _ping_task := v;
     _last_pong := _last_pong s |}.

Definition with_last_pong (v : Q) (s : DeckLinkServer) : DeckLinkServer :=
  {| device_name := device_name s; device_type := device_type s; port := port s;
     _state := _state s; _current_session := _current_session s; _peer := _peer s;
     _websocket := _websocket s; _ping_task := _ping_task s;
     _last_pong := v |}.

(** Updates of the world. *)
Definition with_now (v : Q) (w : World) : World :=
  {| now := v; uuid4 := uuid4 w; uuid_count := uuid_count w;
     generated := generated w; generated_count := generated_count w;
     dial := dial w; closed := closed w; sent := sent w; events := events w;
     logs := logs w; tasks := tasks w; cancelled := cancelled w |}.

Definition with_uuid_count (v : nat) (w : World) : World :=
  {| now := now w; uuid4 := uuid4 w; uuid_count := v;
     generated := generated w; generated_count := generated_count w;
     dial := dial w; closed := closed w; sent := sent w; events := events w;
     logs := logs w; tasks := tasks w; cancelled := cancelled w |}.

Definition with_generated (v : nat -> string) (w : World) : World :=
  {| now := now w; uuid4 := uuid4 w; uuid_count := uuid_count w;
     generated := v; generated_count := generated_count w;
     dial := dial w; closed := closed w; sent := sent w; events := events w;
     logs := logs w; tasks := tasks w; cancelled := cancelled w |}.

Definition with_generated_count (v : nat) (w : World) : World :=
  {| now := now w; uuid4 := uuid4 w; uuid_count := uuid_count w;
     generated := generated w; generated_count := v;
     dial := dial w; closed := closed w; sent := sent w; events := events w;
     logs := logs w; tasks := tasks w; cancelled := cancelled w |}.

Definition with_closed (v : list WebSocket) (w : World) : World :=
  {| now := now w; uuid4 := uuid4 w; uuid_count := uuid_count w;
     generated := generated w; generated_count := generated_count w;
     dial := dial w; closed := v; sent := sent w; events := events w;
     logs := logs w; tasks := tasks w; cancelled := cancelled w |}.

Definition with_sent (v : list (WebSocket * Message)) (w : World) : World :=
  {| now := now w; uuid4 := uuid4 w; uuid_count := uuid_count w;
     generated := generated w; generated_count := generated_count w;
     dial := dial w; closed := closed w; sent := v; events := events w;
     logs := logs w; tasks := tasks w; cancelled := cancelled w |}.

Definition with_events (v : list (string * Dict)) (w : World) : World :=
  {| now := now w; uuid4 := uuid4 w; uuid_count := uuid_count w;
     generated := generated w; generated_count := generated_count w;
     dial := dial w; closed := closed w; sent := sent w; events := v;
     logs := logs w; tasks := tasks w; cancelled := cancelled w |}.

Definition with_logs (v : list (Level * string)) (w : World) : World :=
  {| now := now w; uuid4 := uuid4 w; uuid_count := uuid_count w;
     generated := generated w; generated_count := generated_count w;
     dial := dial w; closed := closed w; sent := sent w; events := events w;
     logs := v; tasks := tasks w; cancelled := cancelled w |}.

Definition with_tasks (v : list Task) (w : World) : World :=
  {| now := now w; uuid4 := uuid4 w; uuid_count := uuid_count w;
     generated := generated w; generated_count := generated_count w;
     dial := dial w; closed := closed w; sent := sent w; events := events w;
     logs := logs w; tasks := v; cancelled := cancelled w |}.

Definition with_cancelled (v : list nat) (w : World) : World :=
  {| now := now w; uuid4 := uuid4 w; uuid_count := uuid_count w;
     generated := generated w; generated_count := generated_count w;
     dial := dial w; closed := closed w; sent := sent w; events := events w;
     logs := logs w; tasks := tasks w; cancelled := v |}.

(** *** What the server asks of the world *)

(** [time.time()] *)
Definition time_time : M Q := w <- get_world ;; ret (now w).

(** [str(uuid.uuid4())] *)
Definition uuid_uuid4 : M string :=
  w <- get_world ;;
  modify_world (with_uuid_count (S (uuid_count w))) ;;
  ret (uuid4 w (uuid_count w)).

(** [generate_passphrase()] of [deck_link/passphrase.py]: the next
    passphrase of the provider. *)
Definition generate_passphrase : M string :=
  w <- get_world ;;
  modify_world (with_generated_count (S (generated_count w))) ;;
  ret (generated w (generated_count w)).

(** [logger.debug], [logger.info], [logger.warning], [logger.error] *)
Definition logger (lvl : Level) (text : string) : M unit :=
  w <- get_world ;; modify_world (with_logs (logs w ++ [(lvl, text)])).

Definition is_closed (ws : WebSocket) (w : World) : bool :=
  existsb (Nat.eqb ws) (closed w).

(** [await websocket.send(m.to_json())]: raises [ConnectionClosed] on a
    closed socket. *)
Definition ws_send (ws : WebSocket) (m : Message) : M unit :=
  w <- get_world ;;
  if is_closed ws w then raise ConnectionClosed
  else modify_world (with_sent (sent w ++ [(ws, m)])).

(** [await websocket.close()] *)
Definition ws_close (ws : WebSocket) : M unit :=
  w <- get_world ;;
  if is_closed ws w then ret tt
  else modify_world (with_closed (ws :: closed w)).

(** [asyncio.create_task(...)]: the number of the new task. *)
Definition create_task (t : Task) : M nat :=
  w <- get_world ;;
  modify_world (with_tasks (tasks w ++ [t])) ;;
  ret (length (tasks w)).

(** [task.cancel()] *)
Definition task_cancel (tid : nat) : M unit :=
  w <- get_world ;; modify_world (with_cancelled (tid :: cancelled w)).

(* ------------------------------------------------------------------ *)
(** ** protocol.py: message factories *)

(** [Message(type=..., session_id=..., payload=...)]: a field left out
    takes its default, [session_id] from [uuid.uuid4()], [timestamp] from
    [time.time()], [payload] the empty dict, in the order of the fields. *)
Definition Message_new (ty : MessageType.t) (sid : option string)
    (pl : option Dict) : M Message :=
  session <- match sid with
             | Some s => ret s
             | None => uuid_uuid4
             end ;;
  ts <- time_time ;;
  ret {| type := ty; session_id := session; timestamp := ts;
         payload := match pl with Some d => d | None => [] end |}.

Definition connection_request (sender_name sender_ip : string)
    (sender_port : Z) : M Message :=
  Message_new MessageType.CONNECTION_REQUEST None
    (Some [("sender_name", VStr sender_name);
           ("sender_ip", VStr sender_ip);
           ("sender_port", VInt sender_port)]).

Definition challenge_response (session_id receiver_name : string) : M Message :=
  Message_new MessageType.CHALLENGE_RESPONSE (Some session_id)
    (Some [("receiver_name", VStr receiver_name);
           ("message", VStr "Enter the passphrase shown on the other device")]).

Definition auth_attempt (session_id passphrase : string) : M Message :=
  Message_new MessageType.AUTH_ATTEMPT (Some session_id)
    (Some [("passphrase", VStr passphrase)]).

Definition auth_result (session_id : string) (success : bool)
    (message : string) : M Message :=
  Message_new MessageType.AUTH_RESULT (Some session_id)
    (Some [("success", VBool success); ("message", VStr message)]).

Definition ping : M Message :=
  Message_new MessageType.PING None None.

Definition pong (ping_session_id : string) : M Message :=
  Message_new MessageType.PONG (Some ping_session_id) None.

Definition disconnect (reason : string) : M Message :=
  Message_new MessageType.DISCONNECT None (Some [("reason", VStr reason)]).

Definition error (message code : string) : M Message :=
  Message_new MessageType.ERROR None
    (Some [("message", VStr message); ("code", VStr code)]).

Definition notification (title body : string) (icon : option string) : M Message :=
  Message_new MessageType.NOTIFICATION None
    (Some [("title", VStr title); ("body", VStr body);
           ("icon", match icon with Some i => VStr i | None => VNone end)]).

(* ------------------------------------------------------------------ *)
(** ** server.py: methods *)

(** A raw frame read from a websocket: [bytes] or [str]. *)
Inductive Frame : Type :=
| Bytes (data : list Byte.byte)
| Text (data : string).

(** What the decoders of the codec (pydantic, msgpack) make of a frame:
    a message, or a validation error with its text. *)
Inductive Decoded : Type :=
| Valid (m : Message)
| Invalid (reason : string).

(** How the stream of inbound frames ends: [async for] returns after a
    clean close and raises [ConnectionClosed] otherwise. *)
Inductive StreamEnd : Type := CleanClose | AbruptClose.

(** [x > y] on clock readings. *)
Definition Qgtb (x y : Q) : bool := negb (Qle_bool x y).

(** Outcome of one turn of a loop body. *)
Inductive Flow : Type := Continue | Break.

Section Server.

(** [PORT] of [deck_link/__init__.py]. *)
Variable PORT : Z.

(** [validate_passphrase(input, expected)] of [deck_link/passphrase.py]. *)
Variable validate_passphrase : Value -> string -> bool.

(** [Message.from_bytes] and [Message.from_json]. *)
Variable from_bytes : list Byte.byte -> Decoded.
Variable from_json : string -> Decoded.

Definition Message_from_bytes (data : list Byte.byte) : M Message :=
  match from_bytes data with
  | Valid m => ret m
  | Invalid reason => raise (Exception reason)
  end.

Definition Message_from_json (data : string) : M Message :=
  match from_json data with
  | Valid m => ret m
  | Invalid reason => raise (Exception reason)
  end.

Definition _emit (event : string) (data : Dict) : M unit :=
  logger DEBUG "Event: {event} - {data}" ;;
  w <- get_world ;;
  modify_world (with_events (events w ++ [(event, data)])).

Definition _set_state (state : ConnectionState.t) : M unit :=
  s <- get_self ;;
  let old_state := _state s in
  modify_self (with_state state) ;;
  _emit "state_changed"
    [("old_state", VStr (ConnectionState.value old_state));
     ("new_state", VStr (ConnectionState.value state))].

Definition _handle_disconnect : M unit :=
  _set_state ConnectionState.DISCONNECTED ;;
  modify_self (with_websocket None) ;;
  modify_self (with_peer None) ;;
  modify_self (with_current_session None) ;;
  s <- get_self ;;
  match _ping_task s with
  | Some tid =>
      task_cancel tid ;;
      modify_self (with_ping_task None)
  | None => ret tt
  end ;;
  _emit "disconnected" [].

(** One turn of the [while] loop of [ping_loop], run by task [tid].
    [others] is what the rest of the process does while this task is in
    [asyncio.sleep(5)], the passing of time included; a task cancelled
    in the meantime gets [CancelledError] out of the sleep.  The clock
    is read in exact rationals where the source subtracts doubles: for a
    sleep within rounding of ten seconds the test of the source can
    come out the other way. *)
Definition asyncio_sleep (tid : nat) (others : Machine -> Machine) : M unit :=
  (fun mc => (Return tt, others mc)) ;;
  w <- get_world ;;
  if existsb (Nat.eqb tid) (cancelled w) then raise CancelledError
  else ret tt.

Definition ping_loop_body (tid : nat) (others : Machine -> Machine) : M Flow :=
  try_except
    (t <- time_time ;;
     modify_self (with_last_pong t) ;;
     s <- get_self ;;
     match _websocket s with
     | Some ws => m <- ping ;; ws_send ws m
     | None => raise (Exception "'NoneType' object has no attribute 'send'")
     end ;;
     asyncio_sleep tid others ;;
     t' <- time_time ;;
     s' <- get_self ;;
     if Qgtb (t' - _last_pong s') 10 then
       logger WARNING "Ping timeout - disconnecting" ;;
       _handle_disconnect ;;
       ret Break
     else ret Continue)
    (fun e =>
       logger LOG_ERROR "Ping error: {e}" ;;
       _handle_disconnect ;;
       ret Break).

(** [ping_loop], followed for as many turns as [sleeps] is long.  The
    result is [Continue] when the loop is still running after them. *)
Fixpoint ping_loop (tid : nat) (sleeps : list (Machine -> Machine)) : M Flow :=
  match sleeps with
  | [] => ret Continue
  | others :: rest =>
      s <- get_self ;;
      match ConnectionState.eqb (_state s) ConnectionState.CONNECTED,
            _websocket s with
      | true, Some _ =>
          f <- ping_loop_body tid others ;;
          match f with
          | Continue => ping_loop tid rest
          | Break => ret Break
          end
      | _, _ => ret Break
      end
  end.

Definition _start_ping_loop : M unit :=
  tid <- create_task PingLoop ;;
  modify_self (with_ping_task (Some tid)).

Definition _handle_connection_request (message : Message)
    (websocket : WebSocket) : M unit :=
  s <- get_self ;;
  if ConnectionState.eqb (_state s) ConnectionState.CONNECTED then
    err <- error "Already connected to another peer" "ALREADY_CONNECTED" ;;
    ws_send websocket err
  else
    passphrase <- generate_passphrase ;;
    modify_self (with_current_session (Some
      {| cs_session_id := session_id message;
         passphrase := passphrase;
         peer_info := Some
           {| name := dict_get (payload message) "sender_name" (VStr "Unknown");
              ip := dict_get (payload message) "sender_ip" (VStr "");
              peer_port := dict_get (payload message) "sender_port" (VInt PORT);
              websocket := Some websocket |};
         cs_state := ConnectionState.DISCONNECTED |})) ;;
    _set_state ConnectionState.CHALLENGE_SENT ;;
    _emit "challenge_generated"
      [("session_id", VStr (session_id message));
       ("passphrase", VStr passphrase);
       ("peer_name", dict_get (payload message) "sender_name" (VStr "Unknown"))] ;;
    response <- challenge_response (session_id message) (device_name s) ;;
    ws_send websocket response.

Definition _handle_challenge_response (message : Message) : M unit :=
  s <- get_self ;;
  if negb (ConnectionState.eqb (_state s) ConnectionState.AWAITING_CHALLENGE) then
    logger WARNING "Unexpected challenge response"
  else
    _set_state ConnectionState.AWAITING_AUTH_INPUT ;;
    _emit "passphrase_required"
      [("session_id", VStr (session_id message));
       ("peer_name", dict_get (payload message) "receiver_name" (VStr "Unknown"))].

(** The dictionary of the [connected] event. *)
Definition connected_data (s : DeckLinkServer) : Dict :=
  [("peer_name", match _peer s with Some p => name p | None => VStr "Unknown" end);
   ("peer_ip", match _peer s with Some p => ip p | None => VStr "" end)].

Definition _handle_auth_attempt (message : Message)
    (websocket : WebSocket) : M unit :=
  s <- get_self ;;
  match _current_session s with
  | None =>
      err <- error "No active session" "NO_SESSION" ;;
      ws_send websocket err
  | Some session =>
      if negb (String.eqb (session_id message) (cs_session_id session)) then
        err <- error "Invalid session" "INVALID_SESSION" ;;
        ws_send websocket err
      else
        let input_passphrase := dict_get (payload message) "passphrase" (VStr "") in
        if validate_passphrase input_passphrase (passphrase session) then
          modify_self (with_websocket (Some websocket)) ;;
          modify_self (with_peer (peer_info session)) ;;
          _set_state ConnectionState.CONNECTED ;;
          result <- auth_result (session_id message) true "Connected!" ;;
          ws_send websocket result ;;
          s' <- get_self ;;
          _emit "connected" (connected_data s') ;;
          _start_ping_loop
        else
          result <- auth_result (session_id message) false "Incorrect passphrase" ;;
          ws_send websocket result ;;
          _emit "auth_failed" [("reason", VStr "Incorrect passphrase")] ;;
          _set_state ConnectionState.DISCONNECTED ;;
          modify_self (with_current_session None)
  end.

Definition _handle_auth_result (message : Message)
    (websocket : WebSocket) : M unit :=
  let success := dict_get (payload message) "success" (VBool false) in
  if truthy success then
    modify_self (with_websocket (Some websocket)) ;;
    _set_state ConnectionState.CONNECTED ;;
    s <- get_self ;;
    _emit "connected" (connected_data s) ;;
    _start_ping_loop
  else
    _set_state ConnectionState.ERROR ;;
    _emit "auth_failed"
      [("reason", dict_get (payload message) "message" (VStr "Authentication failed"))].

Definition _handle_ping (message : Message) (websocket : WebSocket) : M unit :=
  response <- pong (session_id message) ;;
  ws_send websocket response.

Definition _handle_pong (message : Message) : M unit :=
  t <- time_time ;;
  modify_self (with_last_pong t).

Definition _handle_message (message : Message) (websocket : WebSocket)
    (is_server : bool) : M unit :=
  logger DEBUG "Received: {message.type.value}" ;;
  match type message with
  | MessageType.CONNECTION_REQUEST => _handle_connection_request message websocket
  | MessageType.CHALLENGE_RESPONSE => _handle_challenge_response message
  | MessageType.AUTH_ATTEMPT => _handle_auth_attempt message websocket
  | MessageType.AUTH_RESULT => _handle_auth_result message websocket
  | MessageType.PING => _handle_ping message websocket
  | MessageType.PONG => _handle_pong message
  | MessageType.DISCONNECT => _handle_disconnect
  | MessageType.NOTIFICATION => _emit "notification" (payload message)
  | _ => logger WARNING "Unhandled message type: {message.type}"
  end.

(** The body of [async for raw_message in websocket] over the frames
    that arrive, then the end of the stream. *)
Fixpoint receive_loop (websocket : WebSocket) (is_server : bool)
    (frames : list Frame) (ending : StreamEnd) : M unit :=
  match frames with
  | [] =>
      match ending with
      | CleanClose => ret tt
      | AbruptClose => raise ConnectionClosed
      end
  | raw_message :: rest =>
      message <- match raw_message with
                 | Bytes data => Message_from_bytes data
                 | Text data => Message_from_json data
                 end ;;
      _handle_message message websocket is_server ;;
      receive_loop websocket is_server rest ending
  end.

(** [try: ... except ConnectionClosed: on_closed except Exception as e:
    on_error] *)
Definition try_except_closed {A} (body : M A) (on_closed on_error : M A) : M A :=
  try_except body
    (fun e => match e with
              | ConnectionClosed => on_closed
              | _ => on_error
              end).

Definition _handle_connection (websocket : WebSocket) (frames : list Frame)
    (ending : StreamEnd) : M unit :=
  logger INFO "Incoming connection from {remote_addr}" ;;
  try_except_closed
    (receive_loop websocket true frames ending)
    (logger INFO "Connection closed from {remote_addr}" ;;
     s <- get_self ;;
     match _websocket s with
     | Some ws' => if Nat.eqb ws' websocket then _handle_disconnect else ret tt
     | None => ret tt
     end)
    (logger LOG_ERROR "Error handling connection: {e}" ;;
     _handle_disconnect).

Definition _client_listen (websocket : WebSocket) (frames : list Frame)
    (ending : StreamEnd) : M unit :=
  try_except_closed
    (receive_loop websocket false frames ending)
    (logger INFO "Client connection closed" ;;
     _handle_disconnect)
    (logger LOG_ERROR "Client error: {e}" ;;
     _handle_disconnect).

Definition connect_to (host : string) (port' : Z) : M unit :=
  s <- get_self ;;
  if negb (ConnectionState.eqb (_state s) ConnectionState.DISCONNECTED) then
    logger WARNING "Already connected or connecting"
  else
    _set_state ConnectionState.AWAITING_CHALLENGE ;;
    try_except
      (w <- get_world ;;
       websocket <- (fun mc => (dial w host port', mc)) ;;
       let peer := {| name := VStr ""; ip := VStr host; peer_port := VInt port';
                      websocket := Some websocket |} in
       modify_self (with_peer (Some peer)) ;;
       request <- connection_request (device_name s) "" (port s) ;;
       ws_send websocket request ;;
       modify_self (with_current_session (Some
         {| cs_session_id := session_id request;
            passphrase := "";
            peer_info := Some peer;
            cs_state := ConnectionState.DISCONNECTED |})) ;;
       create_task (ClientListen websocket) ;;
       ret tt)
      (fun e =>
         logger LOG_ERROR "Connection failed: {e}" ;;
         _set_state ConnectionState.ERROR ;;
         _emit "connection_error"
           [("error", VStr (Exn_str e))]).

Definition submit_passphrase (passphrase : string) : M unit :=
  s <- get_self ;;
  if negb (ConnectionState.eqb (_state s) ConnectionState.AWAITING_AUTH_INPUT) then
    logger WARNING "Not awaiting passphrase input"
  else
    match _current_session s, _peer s with
    | Some session, Some peer =>
        match websocket peer with
        | Some ws =>
            attempt <- auth_attempt (cs_session_id session) passphrase ;;
            ws_send ws attempt
        | None => logger LOG_ERROR "No active session"
        end
    | _, _ => logger LOG_ERROR "No active session"
    end.

Definition disconnect_peer : M unit :=
  s <- get_self ;;
  match _websocket s with
  | Some ws =>
      try_except
        (m <- disconnect "User requested disconnect" ;;
         ws_send ws m ;;
         ws_close ws)
        (fun _ => ret tt)
  | None => ret tt
  end ;;
  _handle_disconnect.

Definition send_notification (title body : string) : M unit :=
  s <- get_self ;;
  match ConnectionState.eqb (_state s) ConnectionState.CONNECTED, _websocket s with
  | true, Some ws =>
      msg <- notification title body None ;;
      ws_send ws msg
  | _, _ => logger WARNING "Not connected"
  end.

End Server.

(* ------------------------------------------------------------------ *)
(** ** server.py: the listener and the status report *)

(** The fields of [DeckLinkServer] that belong to the listening socket:
    [_server], known by the number of the [asyncio.Server] object, and
    [_running]. *)
Record Listener : Type := {
  _server : option nat;
  _running : bool
}.

(** [start]; [served] is what [websockets.server.serve] does when it is
    asked to listen on [self.port]: it hands out a server object or
    raises. *)
Definition start (l : Listener) (served : Result nat) : M Listener :=
  if _running l then ret l
  else
    srv <- (fun mc => (served, mc)) ;;
    s <- get_self ;;
    logger INFO "Server started on port {self.port}" ;;
    _emit "server_started" [("port", VInt (port s))] ;;
    ret {| _server := Some srv; _running := true |}.

Definition stop (l : Listener) : M Listener :=
  s <- get_self ;;
  match _ping_task s with
  | Some tid =>
      task_cancel tid ;;
      modify_self (with_ping_task None)
  | None => ret tt
  end ;;
  match _websocket s with
  | Some ws =>
      ws_close ws ;;
      modify_self (with_websocket None)
  | None => ret tt
  end ;;
  _set_state ConnectionState.DISCONNECTED ;;
  modify_self (with_peer None) ;;
  modify_self (with_current_session None) ;;
  logger INFO "Server stopped" ;;
  _emit "server_stopped" [] ;;
  ret {| _server := None; _running := false |}.

(** [is_connected] *)
Definition is_connected (s : DeckLinkServer) : bool :=
  ConnectionState.eqb (_state s) ConnectionState.CONNECTED.

Definition get_status (s : DeckLinkServer) : Dict :=
  [("state", VStr (ConnectionState.value (_state s)));
   ("device_name", VStr (device_name s));
   ("device_type", VStr (device_type s));
   ("port", VInt (port s));
   ("peer", match _peer s with
            | Some p => VDict [("name", name p); ("ip", ip p);
                               ("port", peer_port p)]
            | None => VNone
            end);
   ("session_id", match _current_session s with
                  | Some session => VStr (cs_session_id session)
                  | None => VNone
                  end)].

(* ------------------------------------------------------------------ *)
(** ** Running a method *)

Definition run {A} (c : M A) (mc : Machine) : Machine := snd (c mc).
Definition outcome {A} (c : M A) (mc : Machine) : Result A := fst (c mc).

(** The number of events called [event] in a trace. *)
Definition count_event (event : string) (evs : list (string * Dict)) : nat :=
  length (filter (fun e => String.eqb (fst e) event) evs).

(** The message [error(message, code)] builds in world [w]. *)
Definition error_in (w : World) (message code : string) : Message :=
  {| type := MessageType.ERROR;
     session_id := uuid4 w (uuid_count w);
     timestamp := now w;
     payload := [("message", VStr message); ("code", VStr code)] |}.

(** The dictionary of a [state_changed] event. *)
Definition state_changed (old new : ConnectionState.t) : string * Dict :=
  ("state_changed",
   [("old_state", VStr (ConnectionState.value old));
    ("new_state", VStr (ConnectionState.value new))]).

(** The decoder that [receive_loop] applies to a frame. *)
Definition decode (from_bytes : list Byte.byte -> Decoded)
    (from_json : string -> Decoded) (raw : Frame) : Decoded :=
  match raw with
  | Bytes data => from_bytes data
  | Text data => from_json data
  end.

(** The rest of the process lets [d] seconds pass and does nothing else. *)
Definition elapse (d : Q) (mc : Machine) : Machine :=
  {| self := self mc; world := with_now (now (world mc) + d) (world mc) |}.

(* ------------------------------------------------------------------ *)
(** ** What the properties speak of *)

(** The reply to a request that is turned away: nothing of the server
    object changes, no event is emitted, and the [ERROR] message with
    [code] goes out on the socket of the request. *)
Definition rejected_with (text code : string) (c : M unit) (ws : WebSocket)
    (mc : Machine) : Prop :=
  outcome c mc = Return tt /\
  self (run c mc) = self mc /\
  events (world (run c mc)) = events (world mc) /\
  sent (world (run c mc)) = sent (world mc) ++ [(ws, error_in (world mc) text code)].

(** A message that is passed over: the connection state, the session
    and the peer stay, nothing is sent and no event is emitted. *)
Definition ignored (c : M unit) (mc : Machine) : Prop :=
  outcome c mc = Return tt /\
  _state (self (run c mc)) = _state (self mc) /\
  _current_session (self (run c mc)) = _current_session (self mc) /\
  _peer (self (run c mc)) = _peer (self mc) /\
  sent (world (run c mc)) = sent (world mc) /\
  events (world (run c mc)) = events (world mc).

(** What a refused passphrase leaves behind. *)
Definition auth_refused (message : Message) (ws : WebSocket) (c : M unit)
    (mc : Machine) : Prop :=
  outcome c mc = Return tt /\
  sent (world (run c mc)) = sent (world mc) ++
    [(ws, {| type := MessageType.AUTH_RESULT;
             session_id := session_id message;
             timestamp := now (world mc);
             payload := [("success", VBool false);
                         ("message", VStr "Incorrect passphrase")] |})] /\
  events (world (run c mc)) = events (world mc) ++
    [("auth_failed", [("reason", VStr "Incorrect passphrase")]);
     state_changed ConnectionState.CHALLENGE_SENT ConnectionState.DISCONNECTED] /\
  _state (self (run c mc)) = ConnectionState.DISCONNECTED /\
  _current_session (self (run c mc)) = None.

(** The pairs of message type and state that no handler acts on. *)
Definition unhandled (ty : MessageType.t) (st : ConnectionState.t) : bool :=
  match ty with
  | MessageType.CHALLENGE_RESPONSE =>
      negb (ConnectionState.eqb st ConnectionState.AWAITING_CHALLENGE)
  | MessageType.PONG
  | MessageType.FILE_TRANSFER
  | MessageType.KEYBOARD_INPUT
  | MessageType.CONTROLLER_INPUT
  | MessageType.AUDIO_STREAM
  | MessageType.ERROR => true
  | _ => false
  end.

(** A command that does nothing. *)
Definition no_effect (c : M unit) (mc : Machine) : Prop :=
  outcome c mc = Return tt /\
  self (run c mc) = self mc /\
  sent (world (run c mc)) = sent (world mc) /\
  events (world (run c mc)) = events (world mc) /\
  tasks (world (run c mc)) = tasks (world mc).

(** What a pass through the disconnect path leaves behind. *)
Definition torn_down (mc mc' : Machine) : Prop :=
  _state (self mc') = ConnectionState.DISCONNECTED /\
  _current_session (self mc') = None /\
  _peer (self mc') = None /\
  _websocket (self mc') = None /\
  _ping_task (self mc') = None /\
  events (world mc') = events (world mc) ++
    [state_changed (_state (self mc)) ConnectionState.DISCONNECTED;
     ("disconnected", [])].

(** A connection handler that gives up at its first frame: it returns,
    it does with [raw :: rest] what it does with [raw] alone, the
    disconnect path has run, nothing was sent and [text] was logged as
    an error. *)
Definition connection_dropped
    (handler : WebSocket -> list Frame -> StreamEnd -> M unit)
    (text : string) (ws : WebSocket) (raw : Frame) (rest : list Frame)
    (ending : StreamEnd) (mc : Machine) : Prop :=
  outcome (handler ws (raw :: rest) ending) mc = Return tt /\
  handler ws (raw :: rest) ending mc = handler ws [raw] ending mc /\
  torn_down mc (run (handler ws (raw :: rest) ending) mc) /\
  sent (world (run (handler ws (raw :: rest) ending) mc)) = sent (world mc) /\
  In (LOG_ERROR, text) (logs (world (run (handler ws (raw :: rest) ending) mc))).

(** A connected machine whose heartbeat task [tid] is live on the open
    socket [ws]. *)
Definition beating (tid : nat) (ws : WebSocket) (mc : Machine) : Prop :=
  _state (self mc) = ConnectionState.CONNECTED /\
  _websocket (self mc) = Some ws /\
  is_closed ws (world mc) = false /\
  existsb (Nat.eqb tid) (cancelled (world mc)) = false.

(** What is left of a machine once the secret is taken out of it: the
    passphrase of the session, the passphrases the provider will yield,
    and the events shown to the local user. *)
Definition blind_session (s : ConnectionSession) : ConnectionSession :=
  {| cs_session_id := cs_session_id s; passphrase := "";
     peer_info := peer_info s; cs_state := cs_state s |}.

Definition blind (mc : Machine) : Machine :=
  {| self := with_current_session
               (option_map blind_session (_current_session (self mc))) (self mc);
     world := with_events [] (with_generated (fun _ => "") (world mc)) |}.

(** A machine whose provider yields [gen] and whose session, if it holds
    one, keeps the passphrase [secret]. *)
Definition with_secret (gen : nat -> string) (secret : string)
    (mc : Machine) : Machine :=
  {| self := with_current_session
               (option_map (fun s =>
                  {| cs_session_id := cs_session_id s; passphrase := secret;
                     peer_info := peer_info s; cs_state := cs_state s |})
                  (_current_session (self mc))) (self mc);
     world := with_generated gen (world mc) |}.

Definition is_auth_result (f : WebSocket * Message) : bool :=
  MessageType.eqb (type (snd f)) MessageType.AUTH_RESULT.

(** The wire trace before the first [AUTH_RESULT]. *)
Fixpoint before_auth_result (l : list (WebSocket * Message))
    : list (WebSocket * Message) :=
  match l with
  | [] => []
  | f :: rest => if is_auth_result f then [] else f :: before_auth_result rest
  end.

(** A message whose handling reads the stored passphrase. *)
Definition checks_secret (message : Message) (mc : Machine) : bool :=
  match type message, _current_session (self mc) with
  | MessageType.AUTH_ATTEMPT, Some session =>
      String.eqb (session_id message) (cs_session_id session)
  | _, _ => false
  end.

Definition appends {A} (c : M A) : Prop :=
  forall mc, exists out,
    sent (world (run c mc)) = sent (world mc) ++ out.

(** How far two runs on one stream of frames can drift apart: not at
    all but for the secret; or both were cut short with the same wire
    trace; or each has written an AUTH_RESULT, and the wire traces were
    the same before it. *)
Inductive agree (r1 r2 : Result unit) (mc1 mc2 : Machine) : Prop :=
| agree_blind :
    r1 = r2 -> blind mc1 = blind mc2 -> agree r1 r2 mc1 mc2
| agree_stopped e1 e2 :
    r1 = Raise e1 -> r2 = Raise e2 ->
    sent (world mc1) = sent (world mc2) -> agree r1 r2 mc1 mc2
| agree_seen :
    existsb is_auth_result (sent (world mc1)) = true ->
    existsb is_auth_result (sent (world mc2)) = true ->
    before_auth_result (sent (world mc1)) =
      before_auth_result (sent (world mc2)) ->
    agree r1 r2 mc1 mc2.

(** The frames a method wrote: the wire trace after it, without the
    trace before it. *)
Definition written {A} (c : M A) (mc : Machine) : list (WebSocket * Message) :=
  skipn (length (sent (world mc))) (sent (world (run c mc))).

(** The answer to a CONNECTION_REQUEST with session_id [sid] that came
    in on [ws]. *)
Definition request_reply (sid : string) (ws : WebSocket) (mc : Machine)
    : list (WebSocket * Message) :=
  if is_closed ws (world mc) then []
  else if ConnectionState.eqb (_state (self mc)) ConnectionState.CONNECTED then
    [(ws, error_in (world mc) "Already connected to another peer"
            "ALREADY_CONNECTED")]
  else
    [(ws, {| type := MessageType.CHALLENGE_RESPONSE;
             session_id := sid;
             timestamp := now (world mc);
             payload :=
               [("receiver_name", VStr (device_name (self mc)));
                ("message",
                 VStr "Enter the passphrase shown on the other device")] |})].

(* ------------------------------------------------------------------ *)
(** ** Concrete machines, for running the model *)

Module Sample.

Definition PORT : Z := 8765.

(** A passphrase check by plain comparison. *)
Definition validate_passphrase (input : Value) (expected : string) : bool :=
  match input with
  | VStr s => String.eqb s expected
  | _ => false
  end.

(** A stand-in for the codec: it accepts the bare name of a message
    type and rejects every other frame. *)
Definition from_json (data : string) : Decoded :=
  if String.eqb data "ping" then
    Valid {| type := MessageType.PING; session_id := "p"; timestamp := 0;
             payload := [] |}
  else if String.eqb data "pong" then
    Valid {| type := MessageType.PONG; session_id := "p"; timestamp := 0;
             payload := [] |}
  else Invalid "validation error".

Definition from_bytes (data : list Byte.byte) : Decoded :=
  Invalid "unpack failed".

Definition the_world : World :=
  {| now := 100;
     uuid4 := fun n => if Nat.eqb n 0 then "uuid-0" else "uuid-n";
     uuid_count := 0;
     generated := fun _ => "amber-otter";
     generated_count := 0;
     dial := fun _ _ => Return 9%nat;
     closed := [];
     sent := [];
     events := [];
     logs := [];
     tasks := [];
     cancelled := [] |}.

Definition alice : PeerInfo :=
  {| name := VStr "A"; ip := VStr "10.0.0.2"; peer_port := VInt 8765;
     websocket := Some 1%nat |}.

Definition held : ConnectionSession :=
  {| cs_session_id := "s1"; passphrase := "amber-otter";
     peer_info := Some alice; cs_state := ConnectionState.DISCONNECTED |}.

Definition server (st : ConnectionState.t) (ses : option ConnectionSession)
    (peer : option PeerInfo) (ws : option WebSocket) (task : option nat)
    : DeckLinkServer :=
  {| device_name := "deck"; device_type := "laptop"; port := 8765;
     _state := st; _current_session := ses; _peer := peer;
     _websocket := ws; _ping_task := task; _last_pong := 0 |}.

(** A responder that has sent its challenge to [alice]. *)
Definition challenged : Machine :=
  {| self := server ConnectionState.CHALLENGE_SENT (Some held) None None None;
     world := the_world |}.

(** An initiator waiting for the challenge. *)
Definition awaiting : Machine :=
  {| self := server ConnectionState.AWAITING_CHALLENGE (Some held) (Some alice)
               None None;
     world := the_world |}.

(** A machine connected to [alice], its heartbeat running as task 0. *)
Definition connected : Machine :=
  {| self := server ConnectionState.CONNECTED (Some held) (Some alice)
               (Some 1%nat) (Some 0%nat);
     world := with_tasks [PingLoop] the_world |}.

(** A machine at rest. *)
Definition idle : Machine :=
  {| self := server ConnectionState.DISCONNECTED None None None None;
     world := the_world |}.

Definition inbound (ty : MessageType.t) (sid : string) (pl : Dict) : Message :=
  {| type := ty; session_id := sid; timestamp := 99; payload := pl |}.

End Sample.

Module Run.

Import Sample.

Abbreviation handle := (_handle_message PORT validate_passphrase).
Abbreviation serve := (_handle_connection PORT validate_passphrase from_bytes from_json).

(** A second request, from [B], reaching a responder that has a
    challenge out to [A]. *)
Definition second_request : Message :=
  inbound MessageType.CONNECTION_REQUEST "s2" [("sender_name", VStr "B")].

(** An attempt on the held session with the wrong passphrase. *)
Definition wrong_attempt : Message :=
  inbound MessageType.AUTH_ATTEMPT "s1" [("passphrase", VStr "wrong")].

(** An attempt under a session_id nobody holds. *)
Definition foreign_attempt : Message :=
  inbound MessageType.AUTH_ATTEMPT "zzz" [("passphrase", VStr "amber-otter")].

(** A challenge response under a session_id nobody holds. *)
Definition foreign_challenge : Message :=
  inbound MessageType.CHALLENGE_RESPONSE "zzz" [("receiver_name", VStr "B")].

Definition a_ping : Message := inbound MessageType.PING "p1" [].

Definition a_file_transfer : Message :=
  inbound MessageType.FILE_TRANSFER "f1" [].

Definition garbage : Frame := Text "not a message".

End Run.


(* ------------------------------------------------------------------ *)
(** ** More of what the properties speak of *)

(** The session a responder opens for a request that came in on [ws]
    when the provider yields [secret]. *)
Definition session_for (PORT : Z) (message : Message) (ws : WebSocket)
    (secret : string) : ConnectionSession :=
  {| cs_session_id := session_id message;
     passphrase := secret;
     peer_info := Some
       {| name := dict_get (payload message) "sender_name" (VStr "Unknown");
          ip := dict_get (payload message) "sender_ip" (VStr "");
          peer_port := dict_get (payload message) "sender_port" (VInt PORT);
          websocket := Some ws |};
     cs_state := ConnectionState.DISCONNECTED |}.

(** The passphrase the provider yields next. *)
Definition next_secret (mc : Machine) : string :=
  generated (world mc) (generated_count (world mc)).

(** The type of a frame, with the [code] and the [success] of its
    payload. *)
Definition frame_summary (f : WebSocket * Message)
    : WebSocket * MessageType.t * Value * Value :=
  (fst f, type (snd f), dict_get (payload (snd f)) "code" VNone,
   dict_get (payload (snd f)) "success" VNone).

(** The peer an initiator notes down when it dials [host]. *)
Definition dialled_peer (host : string) (port' : Z) (ws : WebSocket) : PeerInfo :=
  {| name := VStr ""; ip := VStr host; peer_port := VInt port';
     websocket := Some ws |}.

(** The token [uuid.uuid4()] yields next. *)
Definition next_uuid (mc : Machine) : string :=
  uuid4 (world mc) (uuid_count (world mc)).

(** The socket, the type and the session_id of a frame. *)
Definition frame_session (f : WebSocket * Message)
    : WebSocket * MessageType.t * string :=
  (fst f, type (snd f), session_id (snd f)).

(** What one inbound message may put on the wire: nothing, or one frame
    on the socket the message came in on, stamped with the clock; an
    ERROR frame carries a fresh session_id, every other frame the
    session_id of the message. *)
Definition reply_to (message : Message) (ws : WebSocket) (mc : Machine)
    (out : list (WebSocket * Message)) : Prop :=
  out = [] \/
  exists r,
    out = [(ws, r)] /\
    timestamp r = now (world mc) /\
    session_id r =
      if MessageType.eqb (type r) MessageType.ERROR then next_uuid mc
      else session_id message.

(** Whether [ws] is the socket of the connection. *)
Definition owns (ws : WebSocket) (mc : Machine) : bool :=
  match _websocket (self mc) with
  | Some ws' => Nat.eqb ws' ws
  | None => false
  end.

(** Nothing of the server object changed and no event was emitted. *)
Definition untouched (mc mc' : Machine) : Prop :=
  self mc' = self mc /\ events (world mc') = events (world mc).

Module Case.

Import Sample.

Abbreviation handle := (_handle_message PORT validate_passphrase).

(** A request from [B] with session_id s2. *)
Definition request : Message :=
inbound MessageType.CONNECTION_REQUEST "s2" [("sender_name", VStr "B")].

(** Attempts on session s2, with the passphrase of [the_world] and with
  another. *)
Definition right_attempt : Message :=
inbound MessageType.AUTH_ATTEMPT "s2" [("passphrase", VStr "amber-otter")].

Definition wrong_attempt : Message :=
inbound MessageType.AUTH_ATTEMPT "s2" [("passphrase", VStr "wrong")].

(** Attempts on the session [held]. *)
Definition held_attempt : Message :=
inbound MessageType.AUTH_ATTEMPT "s1" [("passphrase", VStr "amber-otter")].

Definition held_wrong_attempt : Message :=
inbound MessageType.AUTH_ATTEMPT "s1" [("passphrase", VStr "wrong")].

Definition challenge : Message :=
inbound MessageType.CHALLENGE_RESPONSE "s7" [("receiver_name", VStr "B")].

Definition good_result : Message :=
inbound MessageType.AUTH_RESULT "s7" [("success", VBool true)].

(** An AUTH_RESULT whose payload is empty. *)
Definition bare_result : Message := inbound MessageType.AUTH_RESULT "s7" [].

Definition a_notification : Message :=
inbound MessageType.NOTIFICATION "n1"
  [("title", VStr "hello"); ("body", VStr "world")].

(** A machine at rest on a network where every dial is refused. *)
Definition offline : Machine :=
{| self := self idle;
   world :=
     {| now := 100;
        uuid4 := fun n => if Nat.eqb n 0 then "uuid-0" else "uuid-n";
        uuid_count := 0;
        generated := fun _ => "amber-otter";
        generated_count := 0;
        dial := fun _ _ => Raise (Exception "connection refused");
        closed := [];
        sent := [];
        events := [];
        logs := [];
        tasks := [];
        cancelled := [] |} |}.

(** An initiator whose user is asked for the passphrase. *)
Definition prompted : Machine :=
{| self := server ConnectionState.AWAITING_AUTH_INPUT (Some held) (Some alice)
             None None;
   world := the_world |}.

(** The machine [connected] after its socket was closed. *)
Definition cut_off : Machine :=
{| self := self connected; world := with_closed [1%nat] (world connected) |}.

Definition down : Listener := {| _server := None; _running := false |}.

End Case.


(** Whether the end of a stream on [ws] runs the disconnect path: in
    [_handle_connection] an abrupt end on the socket of the connection,
    in [_client_listen] every abrupt end. *)
Definition server_close_disconnects (ws : WebSocket) (ending : StreamEnd)
    (mc : Machine) : bool :=
  match ending with
  | AbruptClose => owns ws mc
  | CleanClose => false
  end.

Definition client_close_disconnects (ending : StreamEnd) : bool :=
  match ending with
  | AbruptClose => true
  | CleanClose => false
  end.

(** The number of disconnected events emitted so far. *)
Definition fired (mc : Machine) : nat :=
  count_event "disconnected" (events (world mc)).

Module Guess.

Import Sample.

(** A stand-in for the codec that knows two frames, both attempts on
  the session [held]: a wrong passphrase and the right one. *)
Definition from_json (data : string) : Decoded :=
if String.eqb data "wrong" then Valid Case.held_wrong_attempt
else if String.eqb data "right" then Valid Case.held_attempt
else Invalid "validation error".

Abbreviation serve := (_handle_connection PORT validate_passphrase from_bytes from_json).

(** The sockets 2, 3, ... of [n] connections whose peer sends one frame
  and is gone: the frame is still read, the reply raises. *)
Definition gone (n : nat) : list WebSocket := seq 2 n.

(** The responder [challenged] with the sockets [gone n] closed. *)
Definition challenged_cut (n : nat) : Machine :=
{| self := self challenged; world := with_closed (gone n) (world challenged) |}.

(** A connection on [ws] that delivers one wrong attempt and breaks
  off. *)
Definition wrong_guess (ws : WebSocket) : M unit :=
serve ws [Text "wrong"] AbruptClose.

(** One such connection after the other. *)
Fixpoint wrong_guesses (wss : list WebSocket) : M unit :=
match wss with
| [] => ret tt
| ws :: rest => wrong_guess ws ;; wrong_guesses rest
end.

(** A connection on the open socket 1 that delivers the right attempt. *)
Definition right_guess : M unit := serve 1%nat [Text "right"] CleanClose.

(** A responder that still waits for an attempt on the session [held]
  and has written nothing and emitted nothing. *)
Definition waiting (mc : Machine) : Prop :=
self mc = self challenged /\
sent (world mc) = [] /\
events (world mc) = [].

End Guess.
(* ------------------------------------------------------------------ *)
(** ** Proof support *)

(** Evaluation of a method on a machine given by its fields: the monad,
    the methods and the record projections are unfolded, list and string
    functions are left alone.  [py_keep] leaves the comparison of
    connection states folded as well. *)
Ltac py_keep :=
  cbv beta iota zeta delta
    [run outcome fst snd
     _handle_message _handle_connection_request _handle_challenge_response
     _handle_auth_attempt _handle_auth_result _handle_ping _handle_pong
     _handle_disconnect _set_state _emit _start_ping_loop connected_data
     connect_to disconnect_peer submit_passphrase send_notification
     ping_loop_body asyncio_sleep elapse
     _handle_connection _client_listen try_except_closed
     Message_from_bytes Message_from_json
     connection_request challenge_response auth_attempt auth_result
     ping pong disconnect error notification Message_new
     ws_send ws_close create_task task_cancel logger is_closed
     generate_passphrase uuid_uuid4 time_time
     try_except modify_self modify_world get_self get_world
     bind ret raise
     with_state with_current_session with_peer with_websocket with_ping_task
     with_last_pong with_now with_uuid_count with_generated
     with_generated_count with_closed with_sent with_events with_logs
     with_tasks with_cancelled
     self world
     device_name device_type port _state _current_session _peer _websocket
     _ping_task _last_pong
     now uuid4 uuid_count generated generated_count dial closed sent events
     logs tasks cancelled
     type session_id timestamp payload
     name ip peer_port websocket
     cs_session_id passphrase peer_info cs_state
     negb option_map].

Ltac py :=
  py_keep;
  cbv beta iota delta [ConnectionState.eqb MessageType.eqb];
  py_keep.

(** Case analysis on a test that evaluation is stuck on. *)
Ltac split_test :=
  match goal with
  | |- context [if ?b then _ else _] =>
      lazymatch b with
      | context [if _ then _ else _] => fail
      | _ => destruct b eqn:?
      end
  | |- context [match ?x with Some _ => _ | None => _ end] =>
      is_var x; destruct x
  end.

Ltac py_cases := py_keep; repeat (split_test; py_keep).

Ltac py_in H :=
  cbv beta iota zeta delta
    [run outcome fst snd is_closed
     self world
     device_name device_type port _state _current_session _peer _websocket
     _ping_task _last_pong
     now uuid4 uuid_count generated generated_count dial closed sent events
     logs tasks cancelled
     type session_id timestamp payload
     cs_session_id passphrase peer_info cs_state] in H.

Ltac destruct_machine mc :=
  destruct mc as [[?dn ?dt ?pt ?st ?ses ?pr ?sock ?ptask ?lp]
                  [?clock ?ids ?idc ?gen ?genc ?dl ?cl ?snt ?evs ?lgs ?tks ?cnc]].

Ltac destruct_message m :=
  destruct m as [ty sid ts pl].

Lemma count_event_app event evs evs' :
  count_event event (evs ++ evs') =
  (count_event event evs + count_event event evs')%nat.
Proof.
  unfold count_event. now rewrite filter_app, length_app.
Qed.

(** Evaluation, with the definitions of this part unfolded as well. *)
Ltac px :=
  cbv beta iota zeta delta
    [written request_reply session_for next_secret frame_summary error_in
     state_changed start stop get_status is_connected];
  py.

Ltac px_keep :=
  cbv beta iota zeta delta
    [written request_reply session_for next_secret frame_summary error_in
     state_changed start stop get_status is_connected];
  py_keep.

Ltac px_cases :=
  cbv beta iota zeta delta
    [written request_reply session_for next_secret frame_summary error_in
     state_changed start stop get_status is_connected];
  py_cases.

Ltac pi :=
  cbv beta iota zeta delta [dialled_peer next_uuid frame_session no_effect];
  px.

Ltac pw_unfold :=
  cbv beta iota zeta delta
    [reply_to owns untouched torn_down beating receive_loop ping_loop fired
     dialled_peer next_uuid frame_session no_effect].

Ltac pw := pw_unfold; px; pw_unfold; px.

Ltac pw_cases := pw_unfold; px_keep; pw_unfold; px_cases.

(** The last step on a goal that evaluation has laid out. *)
Ltac fin :=
  rewrite <- ?app_assoc; cbn [existsb app]; rewrite ?Nat.eqb_refl;
  cbn [orb]; auto 12.

(** An event in the tail that a method added to the trace. *)
Ltac in_tail :=
  rewrite <- ?app_assoc; apply in_or_app; right; cbn [In app]; auto 10.


(** Evaluation of the tests that are closed terms. *)
Ltac ground :=
  repeat match goal with
  | |- context [if ?b then _ else _] =>
      lazymatch b with
      | context [if _ then _ else _] => fail
      | _ => idtac
      end;
      let v := eval vm_compute in b in
      first [constr_eq v true | constr_eq v false];
      change b with v; cbv iota
  end.

(* ------------------------------------------------------------------ *)
(** ** Properties of the handshake handlers *)

Section Handshake.

Variable PORT : Z.
Variable validate_passphrase : Value -> string -> bool.

Local Abbreviation handle := (_handle_message PORT validate_passphrase).

(** C1, as amended: in state CONNECTED an inbound CONNECTION_REQUEST is
    answered with ERROR ALREADY_CONNECTED and leaves the state, the
    session and the peer as they were. *)
Theorem connection_request_rejected_when_connected message ws is_server mc :
  type message = MessageType.CONNECTION_REQUEST ->
  _state (self mc) = ConnectionState.CONNECTED ->
  is_closed ws (world mc) = false ->
  rejected_with "Already connected to another peer" "ALREADY_CONNECTED"
    (handle message ws is_server) ws mc.
Proof.
  intros Ht Hs Hc.  destruct_machine mc.
  destruct_message message. py_in Ht. py_in Hs. py_in Hc. subst.
  unfold rejected_with, error_in. py. rewrite Hc. py. auto.
Qed.

(** The refusal when the reply can be written: on an open socket a
    matching AUTH_ATTEMPT with a wrong passphrase in state
    CHALLENGE_SENT sends AUTH_RESULT with success false, emits
    auth_failed, returns to DISCONNECTED and clears the session. *)
Theorem auth_attempt_with_wrong_passphrase message ws is_server session mc :
  type message = MessageType.AUTH_ATTEMPT ->
  _state (self mc) = ConnectionState.CHALLENGE_SENT ->
  _current_session (self mc) = Some session ->
  session_id message = cs_session_id session ->
  validate_passphrase (dict_get (payload message) "passphrase" (VStr ""))
    (passphrase session) = false ->
  is_closed ws (world mc) = false ->
  auth_refused message ws (handle message ws is_server) mc.
Proof.
  intros Ht Hs Hses Hid Hv Hc. destruct_machine mc.
  destruct_message message. destruct session as [sid' pass pinfo cst].
  py_in Ht. py_in Hs. py_in Hses. py_in Hid. py_in Hv. py_in Hc. subst.
  unfold auth_refused, state_changed. py. rewrite String.eqb_refl. py.
  rewrite Hv. py. rewrite Hc. py. rewrite <- !app_assoc. auto.
Qed.

(** C3, as amended: with a session held, an AUTH_ATTEMPT under another
    session_id is answered with ERROR INVALID_SESSION and changes
    nothing.  A CHALLENGE_RESPONSE is handled without looking at its
    session_id: it is never answered, and outside AWAITING_CHALLENGE it
    is passed over. *)
Theorem foreign_session_id message ws is_server session mc :
  _current_session (self mc) = Some session ->
  session_id message <> cs_session_id session ->
  (type message = MessageType.AUTH_ATTEMPT ->
   is_closed ws (world mc) = false ->
   rejected_with "Invalid session" "INVALID_SESSION"
     (handle message ws is_server) ws mc) /\
  (type message = MessageType.CHALLENGE_RESPONSE ->
   outcome (handle message ws is_server) mc = Return tt /\
   sent (world (run (handle message ws is_server) mc)) = sent (world mc) /\
   (_state (self mc) <> ConnectionState.AWAITING_CHALLENGE ->
    ignored (handle message ws is_server) mc)).
Proof.
  intros Hses Hid.  destruct_machine mc.
  destruct_message message. destruct session as [sid' pass pinfo cst].
  py_in Hses. py_in Hid. apply String.eqb_neq in Hid. subst. split.
  - intros Ht Hc. py_in Ht. py_in Hc. subst.
    unfold rejected_with, error_in. py. rewrite Hid. py. rewrite Hc. py.
    auto.
  - intros Ht. py_in Ht. subst. unfold ignored.
    destruct st; py; intuition congruence.
Qed.

(** C5, as amended: a CHALLENGE_RESPONSE outside AWAITING_CHALLENGE, a
    PONG, and a message of a type without handler (FILE_TRANSFER,
    KEYBOARD_INPUT, CONTROLLER_INPUT, AUDIO_STREAM, ERROR) leave the
    connection state, the session and the peer unchanged and emit
    nothing. *)
Theorem unhandled_message_is_ignored message ws is_server mc :
  unhandled (type message) (_state (self mc)) = true ->
  ignored (handle message ws is_server) mc.
Proof.
  intros H.  destruct_machine mc. destruct_message message.
  unfold ignored. py_in H.
  destruct ty, st; cbn in H; try discriminate H; py; auto 10.
Qed.

(** C10: outside DISCONNECTED, connect_to does nothing: the server
    object is unchanged, nothing is sent, no event is emitted, no
    listener task is created. *)
Theorem connect_to_when_busy host port' mc :
  _state (self mc) <> ConnectionState.DISCONNECTED ->
  no_effect (connect_to host port') mc.
Proof.
  intros H. destruct_machine mc. py_in H. unfold no_effect.
  destruct st; try congruence; py; auto.
Qed.

End Handshake.

(* ------------------------------------------------------------------ *)
(** ** Disconnecting *)

Section Disconnect.

Variable PORT : Z.
Variable validate_passphrase : Value -> string -> bool.
Variable from_bytes : list Byte.byte -> Decoded.
Variable from_json : string -> Decoded.

Lemma _handle_disconnect_spec mc :
  outcome _handle_disconnect mc = Return tt /\
  torn_down mc (run _handle_disconnect mc) /\
  sent (world (run _handle_disconnect mc)) = sent (world mc).
Proof.
  destruct_machine mc. unfold torn_down, state_changed.
  destruct ptask; py; rewrite <- ?app_assoc; auto 10.
Qed.

Lemma disconnect_peer_spec mc :
  outcome disconnect_peer mc = Return tt /\
  torn_down mc (run disconnect_peer mc).
Proof.
  destruct_machine mc. unfold torn_down, state_changed.
  destruct sock as [ws|].
  - destruct (existsb (Nat.eqb ws) cl) eqn:E; py; rewrite ?E; py;
      rewrite ?E; py;
      destruct ptask; py; rewrite <- ?app_assoc; auto 10.
  - destruct ptask; py; rewrite <- ?app_assoc; auto 10.
Qed.

Lemma torn_down_count mc mc' :
  torn_down mc mc' ->
  count_event "disconnected" (events (world mc')) =
  S (count_event "disconnected" (events (world mc))).
Proof.
  intros (_ & _ & _ & _ & _ & E). rewrite E, count_event_app.
  cbn. lia.
Qed.

(** *** A frame that does not decode *)

Lemma receive_loop_undecodable ws is_server raw rest ending reason mc :
  decode from_bytes from_json raw = Invalid reason ->
  receive_loop PORT validate_passphrase from_bytes from_json ws is_server
    (raw :: rest) ending mc = (Raise (Exception reason), mc).
Proof.
  intros H. cbn [receive_loop]. unfold bind at 1.
  destruct raw as [data|data]; cbn [decode] in H;
    unfold Message_from_bytes, Message_from_json; rewrite H; reflexivity.
Qed.

Local Abbreviation serve := (_handle_connection PORT validate_passphrase from_bytes from_json).
Local Abbreviation listen := (_client_listen PORT validate_passphrase from_bytes from_json).

Lemma serve_undecodable ws raw rest ending reason mc :
  decode from_bytes from_json raw = Invalid reason ->
  serve ws (raw :: rest) ending mc =
  (logger INFO "Incoming connection from {remote_addr}" ;;
   logger LOG_ERROR "Error handling connection: {e}" ;;
   _handle_disconnect)%py mc.
Proof.
  intros H. 
  unfold _handle_connection, try_except_closed, try_except, bind.
  destruct (logger INFO "Incoming connection from {remote_addr}" mc)
    as [[[]|e] mc0]; [|reflexivity].
  erewrite receive_loop_undecodable by exact H. reflexivity.
Qed.

Lemma listen_undecodable ws raw rest ending reason mc :
  decode from_bytes from_json raw = Invalid reason ->
  listen ws (raw :: rest) ending mc =
  (logger LOG_ERROR "Client error: {e}" ;; _handle_disconnect)%py mc.
Proof.
  intros H. 
  unfold _client_listen, try_except_closed, try_except.
  erewrite receive_loop_undecodable by exact H. reflexivity.
Qed.

(** *** The end of a stream, then disconnect() *)

Lemma serve_close_fired ws ending mc :
  fired (run (serve ws [] ending) mc) =
  (fired mc + if server_close_disconnects ws ending mc then 1 else 0)%nat.
Proof.
  destruct_machine mc. unfold fired, server_close_disconnects.
  destruct ending; [|destruct sock as [ws'|];
                      [destruct (Nat.eqb ws' ws) eqn:E|]];
    pw; rewrite ?E; pw; try (destruct ptask; pw);
    rewrite <- ?app_assoc, ?count_event_app; cbn; lia.
Qed.

Lemma listen_close_fired ws ending mc :
  fired (run (listen ws [] ending) mc) =
  (fired mc + if client_close_disconnects ending then 1 else 0)%nat.
Proof.
  destruct_machine mc. unfold fired, client_close_disconnects.
  destruct ending; [|destruct ptask]; pw;
    rewrite <- ?app_assoc, ?count_event_app; cbn; lia.
Qed.

Lemma disconnect_peer_fired mc :
  fired (run disconnect_peer mc) = S (fired mc).
Proof. apply torn_down_count, disconnect_peer_spec. Qed.

(** C4, as amended: every call of disconnect() runs the disconnect
    path: it returns, emits one disconnected event and leaves the state
    at DISCONNECTED with session and peer cleared.  So two calls in a
    row emit two disconnected events.  A call after the end of a stream
    emits the second event when the end of the stream ran the
    disconnect path (on the client side an abrupt end, on the server
    side an abrupt end on the socket of the connection), and the one
    event otherwise (a clean end, or an abrupt end on another
    socket). *)
Theorem disconnect_emits_on_every_call ws ending mc :
  let once := run disconnect_peer mc in
  let twice := run disconnect_peer once in
  let served := run (serve ws [] ending) mc in
  let listened := run (listen ws [] ending) mc in
  (outcome disconnect_peer mc = Return tt /\
   outcome disconnect_peer once = Return tt /\
   torn_down mc once /\
   torn_down once twice /\
   fired twice = (fired mc + 2)%nat) /\
  (outcome disconnect_peer served = Return tt /\
   torn_down served (run disconnect_peer served) /\
   fired (run disconnect_peer served) =
     (fired mc + if server_close_disconnects ws ending mc then 2 else 1)%nat) /\
  (outcome disconnect_peer listened = Return tt /\
   torn_down listened (run disconnect_peer listened) /\
   fired (run disconnect_peer listened) =
     (fired mc + if client_close_disconnects ending then 2 else 1)%nat).
Proof.
  cbv zeta.
  pose proof (disconnect_peer_spec mc) as (R1 & T1).
  pose proof (disconnect_peer_spec (run disconnect_peer mc)) as (R2 & T2).
  pose proof (disconnect_peer_spec (run (serve ws [] ending) mc)) as (R3 & T3).
  pose proof (disconnect_peer_spec (run (listen ws [] ending) mc)) as (R4 & T4).
  repeat match goal with |- _ /\ _ => split end; try assumption.
  - rewrite !disconnect_peer_fired. lia.
  - rewrite disconnect_peer_fired, serve_close_fired.
    destruct (server_close_disconnects ws ending mc); lia.
  - rewrite disconnect_peer_fired, listen_close_fired.
    destruct (client_close_disconnects ending); lia.
Qed.

(** C6, as amended: a frame that fails to decode ends the connection.
    The failure is logged, the disconnect path runs (state DISCONNECTED,
    session and peer cleared, disconnected event), nothing is sent, the
    frames that follow are not read, and no exception leaves the
    handler. *)
Theorem undecodable_frame_disconnects ws raw rest ending reason mc :
  decode from_bytes from_json raw = Invalid reason ->
  connection_dropped serve "Error handling connection: {e}"
    ws raw rest ending mc /\
  connection_dropped listen "Client error: {e}" ws raw rest ending mc.
Proof.
  intros H. unfold connection_dropped. split.
  - split; [|split].
    2: now erewrite !serve_undecodable by exact H.
    all: unfold run, outcome; erewrite serve_undecodable by exact H.
    all: destruct_machine mc; unfold torn_down, state_changed.
    all: destruct ptask; py; rewrite <- ?app_assoc; repeat split.
    all: try (apply in_or_app; right; cbn; auto 10).
  - split; [|split].
    2: now erewrite !listen_undecodable by exact H.
    all: unfold run, outcome; erewrite listen_undecodable by exact H.
    all: destruct_machine mc; unfold torn_down, state_changed.
    all: destruct ptask; py; rewrite <- ?app_assoc; repeat split.
    all: try (apply in_or_app; right; cbn; auto 10).
Qed.

End Disconnect.

(* ------------------------------------------------------------------ *)
(** ** The heartbeat *)

Section Heartbeat.

Lemma Qgtb_elapsed (t d : Q) : d <= 10 -> Qgtb (t + d - t) 10 = false.
Proof.
  intros H. unfold Qgtb. apply negb_false_iff, Qle_bool_iff. lra.
Qed.

(** One turn of the loop during which no PONG is handled and [d]
    seconds pass: the timestamp written at the top of the turn is the
    one the check reads, so the check sees [d] and not the time since
    the last PONG. *)
Lemma ping_loop_body_quiet tid ws d mc :
  beating tid ws mc ->
  d <= 10 ->
  outcome (ping_loop_body tid (elapse d)) mc = Return Continue /\
  beating tid ws (run (ping_loop_body tid (elapse d)) mc) /\
  events (world (run (ping_loop_body tid (elapse d)) mc)) = events (world mc).
Proof.
  intros (Hs & Hw & Hc & Hk) Hd. destruct_machine mc.
  py_in Hs. py_in Hw. py_in Hc. py_in Hk. subst.
  unfold beating, elapse. py. rewrite Hc. py. rewrite Hk. py.
  rewrite (Qgtb_elapsed clock Hd). py. rewrite Hc, Hk. auto 10.
Qed.

Lemma Qgtb_overslept (t d : Q) : 10 < d -> Qgtb (t + d - t) 10 = true.
Proof.
  intros H. unfold Qgtb. apply negb_true_iff.
  destruct (Qle_bool (t + d - t) 10) eqn:E; [|reflexivity].
  apply Qle_bool_iff in E. lra.
Qed.

(** The check fires when the sleep itself took more than ten seconds,
    whether or not a PONG came in. *)
Lemma ping_loop_body_overslept tid ws d mc :
  beating tid ws mc ->
  10 < d ->
  outcome (ping_loop_body tid (elapse d)) mc = Return Break /\
  torn_down mc (run (ping_loop_body tid (elapse d)) mc).
Proof.
  intros (Hs & Hw & Hc & Hk) Hd. destruct_machine mc.
  py_in Hs. py_in Hw. py_in Hc. py_in Hk. subst.
  unfold torn_down, state_changed. py. rewrite Hc. py. rewrite Hk. py.
  rewrite (Qgtb_overslept clock Hd).
  destruct ptask; py; rewrite <- ?app_assoc; auto 10.
Qed.

Lemma ping_loop_quiet tid ws ds : forall mc,
  beating tid ws mc ->
  Forall (fun d => d <= 10) ds ->
  outcome (ping_loop tid (map elapse ds)) mc = Return Continue /\
  beating tid ws (run (ping_loop tid (map elapse ds)) mc) /\
  events (world (run (ping_loop tid (map elapse ds)) mc)) = events (world mc).
Proof.
  induction ds as [|d ds IH]; intros mc Hb Hds.
  - cbn. auto.
  - inversion Hds as [|? ? Hd Hds']; subst.
    destruct (ping_loop_body_quiet Hb Hd) as (Ho & Hb' & He).
    destruct (IH _ Hb' Hds') as (Ho' & Hb'' & He').
    assert (E : ping_loop tid (map elapse (d :: ds)) mc =
                ping_loop tid (map elapse ds)
                  (run (ping_loop_body tid (elapse d)) mc)).
    { destruct Hb as (Hs & Hw & _).
      cbn [map ping_loop]. unfold bind, get_self. cbv beta iota.
      rewrite Hs, Hw. cbn [ConnectionState.eqb].
      unfold outcome, run in *.
      destruct (ping_loop_body tid (elapse d) mc) as [r mc1].
      cbn [fst snd] in *. subst r. reflexivity. }
    unfold run, outcome in *. rewrite E, <- He. auto.
Qed.

(** C2, at the failing input: the machine [Sample.connected] never
    receives a PONG and every sleep of the heartbeat lasts its five
    seconds.  However many turns the loop takes, it is still running,
    the state is still CONNECTED and no disconnected event was
    emitted. *)
Theorem heartbeat_never_times_out (n : nat) :
  let sleeps := map elapse (repeat 5 n) in
  outcome (ping_loop 0%nat sleeps) Sample.connected = Return Continue /\
  _state (self (run (ping_loop 0%nat sleeps) Sample.connected)) =
    ConnectionState.CONNECTED /\
  count_event "disconnected"
    (events (world (run (ping_loop 0%nat sleeps) Sample.connected))) = 0%nat.
Proof.
  cbv zeta.
  assert (Hb : beating 0%nat 1%nat Sample.connected) by (repeat split).
  assert (Hd : Forall (fun d => d <= 10) (repeat 5 n)).
  { apply Forall_forall. intros d Hin. apply repeat_spec in Hin. subst d.
    discriminate. }
  destruct (ping_loop_quiet Hb Hd) as (Ho & (Hs & _) & He).
  rewrite Ho, Hs, He. auto.
Qed.

End Heartbeat.

(* ------------------------------------------------------------------ *)
(** ** The secret and the wire *)

Lemma before_auth_result_app_seen l out :
  existsb is_auth_result l = true ->
  before_auth_result (l ++ out) = before_auth_result l.
Proof.
  induction l as [|f l IH]; cbn; intros H; [discriminate|].
  destruct (is_auth_result f); [reflexivity|].
  cbn in H. now rewrite IH.
Qed.

Lemma before_auth_result_snoc l f :
  is_auth_result f = true ->
  before_auth_result (l ++ [f]) = before_auth_result l.
Proof.
  intros H. induction l as [|g l IH]; cbn.
  - now rewrite H.
  - destruct (is_auth_result g); [reflexivity|]. now rewrite IH.
Qed.

Lemma blind_with_secret gen1 secret1 gen2 secret2 mc :
  blind (with_secret gen1 secret1 mc) = blind (with_secret gen2 secret2 mc).
Proof.
  destruct_machine mc. unfold blind, with_secret. cbn.
  destruct ses; reflexivity.
Qed.

Lemma blind_sent mc1 mc2 :
  blind mc1 = blind mc2 -> sent (world mc1) = sent (world mc2).
Proof.
  intros H. apply (f_equal (fun m => sent (world m))) in H. exact H.
Qed.

Section Secrecy.

Variable PORT : Z.
Variable validate_passphrase : Value -> string -> bool.
Variable from_bytes : list Byte.byte -> Decoded.
Variable from_json : string -> Decoded.

Local Abbreviation handle := (_handle_message PORT validate_passphrase).

Ltac blind_equal H :=
  unfold blind in H; cbn in H; injection H; clear H; intros; subst.

Lemma checks_secret_blind message mc1 mc2 :
  blind mc1 = blind mc2 ->
  checks_secret message mc1 = checks_secret message mc2.
Proof.
  intros H. destruct_machine mc1. destruct_machine mc2.
  unfold checks_secret. cbn.
  destruct ses as [[]|], ses0 as [[]|]; blind_equal H; try discriminate;
    cbn in *; reflexivity.
Qed.

(** A message that does not read the passphrase is handled alike by
    two machines that differ in the secret only. *)
Lemma handle_blind message ws is_server mc1 mc2 :
  blind mc1 = blind mc2 ->
  checks_secret message mc1 = false ->
  outcome (handle message ws is_server) mc1 =
    outcome (handle message ws is_server) mc2 /\
  blind (run (handle message ws is_server) mc1) =
    blind (run (handle message ws is_server) mc2).
Proof.
  intros H Hc. 
  destruct_machine mc1. destruct_machine mc2. destruct_message message.
  unfold checks_secret in Hc. py_in Hc.
  destruct ses as [[]|], ses0 as [[]|]; blind_equal H; try discriminate.
  - unfold blind, blind_session.
    destruct ty; py_cases; try congruence; auto.
  - unfold blind, blind_session.
    destruct ty; py_cases; try congruence; auto.
Qed.

Lemma blind_closed ws mc1 mc2 :
  blind mc1 = blind mc2 -> is_closed ws (world mc1) = is_closed ws (world mc2).
Proof.
  intros H. apply (f_equal (fun m => is_closed ws (world m))) in H. exact H.
Qed.

(** A message that reads the passphrase: on an open socket the one
    frame it writes is an AUTH_RESULT, on a closed socket it writes
    nothing and raises. *)
Lemma handle_checks_secret message ws is_server mc :
  checks_secret message mc = true ->
  if is_closed ws (world mc) then
    outcome (handle message ws is_server) mc = Raise ConnectionClosed /\
    sent (world (run (handle message ws is_server) mc)) = sent (world mc)
  else
    exists r,
      type r = MessageType.AUTH_RESULT /\
      sent (world (run (handle message ws is_server) mc)) =
        sent (world mc) ++ [(ws, r)].
Proof.
  intros Hc.  destruct_machine mc. destruct_message message.
  unfold checks_secret in Hc. py_in Hc.
  destruct ty; try discriminate Hc. destruct ses as [[]|]; try discriminate Hc.
  py_in Hc. py_cases; try congruence;
    lazymatch goal with
    | |- exists _, _ => eexists; split; [|reflexivity]; reflexivity
    | |- _ /\ _ => split; reflexivity
    end.
Qed.

(** *** Methods only add to the wire trace *)

Lemma appends_bind {A B} (c : M A) (k : A -> M B) :
  appends c -> (forall a, appends (k a)) -> appends (bind c k).
Proof.
  intros Hc Hk mc. destruct (Hc mc) as [out E].
  unfold run, bind in *. destruct (c mc) as [[a|e] mc']; cbn [snd] in *.
  - destruct (Hk a mc') as [out' E']. unfold run in E'.
    exists (out ++ out'). now rewrite E', E, app_assoc.
  - now exists out.
Qed.

Lemma appends_pure {A} (r : Result A) : appends (fun mc => (r, mc)).
Proof. intros mc. exists []. symmetry. apply app_nil_r. Qed.

Lemma handle_appends message ws is_server :
  appends (handle message ws is_server).
Proof.
  intros mc.  destruct_machine mc. destruct_message message.
  destruct ty; py_cases;
    first [ exists []; symmetry; apply app_nil_r | eexists; reflexivity ].
Qed.

Local Abbreviation loop := (receive_loop PORT validate_passphrase from_bytes from_json).

Lemma loop_cons_valid ws is_server raw rest ending message mc :
  decode from_bytes from_json raw = Valid message ->
  loop ws is_server (raw :: rest) ending mc =
  bind (handle message ws is_server)
    (fun _ => loop ws is_server rest ending) mc.
Proof.
  intros H.  cbn [receive_loop]. unfold bind at 1.
  destruct raw as [data|data]; cbn [decode] in H;
    unfold Message_from_bytes, Message_from_json; rewrite H; reflexivity.
Qed.

Lemma Message_from_appends raw :
  appends match raw with
          | Bytes data => Message_from_bytes from_bytes data
          | Text data => Message_from_json from_json data
          end.
Proof.
  destruct raw as [data|data];
    unfold Message_from_bytes, Message_from_json.
  - destruct (from_bytes data); apply appends_pure.
  - destruct (from_json data); apply appends_pure.
Qed.

Lemma loop_appends ws is_server frames ending :
  appends (loop ws is_server frames ending).
Proof.
   induction frames as [|raw rest IH]; cbn [receive_loop].
  - destruct ending; apply appends_pure.
  - apply appends_bind; [apply Message_from_appends|]. intros message.
    apply appends_bind; [apply handle_appends|]. intros _. exact IH.
Qed.

(** *** Two runs that differ in the secret *)

Lemma agree_before r1 r2 mc1 mc2 :
  agree r1 r2 mc1 mc2 ->
  before_auth_result (sent (world mc1)) =
  before_auth_result (sent (world mc2)).
Proof.
  intros H. destruct H as [_ H|e1 e2 _ _ H|_ _ H].
  - now rewrite (blind_sent H).
  - now rewrite H.
  - exact H.
Qed.

Lemma seen_snoc l ws r out :
  type r = MessageType.AUTH_RESULT ->
  existsb is_auth_result ((l ++ [(ws, r)]) ++ out) = true /\
  before_auth_result ((l ++ [(ws, r)]) ++ out) = before_auth_result l.
Proof.
  intros Hr.
  assert (Hf : is_auth_result (ws, r) = true)
    by (unfold is_auth_result; cbn [snd]; now rewrite Hr).
  assert (Hs : existsb is_auth_result (l ++ [(ws, r)]) = true).
  { rewrite existsb_app. cbn [existsb]. rewrite Hf.
    now rewrite orb_true_r. }
  split.
  - rewrite existsb_app, Hs. reflexivity.
  - rewrite (before_auth_result_app_seen _ _ Hs).
    now apply before_auth_result_snoc.
Qed.

Lemma loop_agree ws is_server frames ending : forall mc1 mc2,
  blind mc1 = blind mc2 ->
  agree (outcome (loop ws is_server frames ending) mc1)
        (outcome (loop ws is_server frames ending) mc2)
        (run (loop ws is_server frames ending) mc1)
        (run (loop ws is_server frames ending) mc2).
Proof.
  induction frames as [|raw rest IH]; intros mc1 mc2 Hb.
  -  cbn [receive_loop]. destruct ending; now apply agree_blind.
  - assert (Hrest := loop_appends ws is_server rest ending).
     unfold run, outcome in *.
    destruct (decode from_bytes from_json raw) as [message|reason] eqn:D.
    2: { erewrite !receive_loop_undecodable by exact D.
         now apply agree_blind. }
    erewrite !loop_cons_valid by exact D.
    unfold bind.
    destruct (checks_secret message mc1) eqn:Hc.
    + pose proof (handle_checks_secret message ws is_server mc1 Hc) as H1.
      rewrite (checks_secret_blind message Hb) in Hc.
      pose proof (handle_checks_secret message ws is_server mc2 Hc) as H2.
      rewrite <- (blind_closed ws Hb) in H2. 
      unfold run, outcome in *.
      destruct (is_closed ws (world mc1)).
      * destruct H1 as (R1 & S1), H2 as (R2 & S2).
        destruct (_handle_message _ _ message ws is_server mc1) as [r1 m1].
        destruct (_handle_message _ _ message ws is_server mc2) as [r2 m2].
        cbn [fst snd] in *. subst r1 r2. cbn [fst snd].
        eapply agree_stopped; try reflexivity.
        now rewrite S1, S2, (blind_sent Hb).
      * destruct H1 as (a1 & A1 & S1), H2 as (a2 & A2 & S2).
        destruct (_handle_message _ _ message ws is_server mc1) as [r1 m1].
        destruct (_handle_message _ _ message ws is_server mc2) as [r2 m2].
        cbn [fst snd] in *.
        assert (E1 : exists out, sent (world (snd
                  match r1 with
                  | Return _ => receive_loop PORT validate_passphrase
                      from_bytes from_json ws is_server rest ending m1
                  | Raise e => (Raise e, m1)
                  end)) = sent (world m1) ++ out).
        { destruct r1; [apply Hrest|]. exists []. symmetry. apply app_nil_r. }
        assert (E2 : exists out, sent (world (snd
                  match r2 with
                  | Return _ => receive_loop PORT validate_passphrase
                      from_bytes from_json ws is_server rest ending m2
                  | Raise e => (Raise e, m2)
                  end)) = sent (world m2) ++ out).
        { destruct r2; [apply Hrest|]. exists []. symmetry. apply app_nil_r. }
        destruct E1 as [o1 E1], E2 as [o2 E2].
        destruct (seen_snoc (sent (world mc1)) ws a1 o1 A1) as (X1 & Y1).
        destruct (seen_snoc (sent (world mc2)) ws a2 o2 A2) as (X2 & Y2).
        rewrite <- S1, <- E1 in X1, Y1. rewrite <- S2, <- E2 in X2, Y2.
        apply agree_seen; [exact X1|exact X2|].
        now rewrite Y1, Y2, (blind_sent Hb).
    + destruct (handle_blind message ws is_server Hb Hc) as (Ho & Hb').
       unfold run, outcome in *.
      destruct (_handle_message _ _ message ws is_server mc1) as [r1 m1].
      destruct (_handle_message _ _ message ws is_server mc2) as [r2 m2].
      cbn [fst snd] in *. subst r2.
      destruct r1; [apply IH; exact Hb'|now apply agree_blind].
Qed.

Local Abbreviation serve := (_handle_connection PORT validate_passphrase from_bytes from_json).

Lemma try_except_closed_sent (body on_closed on_error : M unit) :
  (forall mc, sent (world (run on_closed mc)) = sent (world mc)) ->
  (forall mc, sent (world (run on_error mc)) = sent (world mc)) ->
  forall mc,
    sent (world (run (try_except_closed body on_closed on_error) mc)) =
    sent (world (run body mc)).
Proof.
  intros Hclosed Herror mc. unfold try_except_closed, try_except, run in *.
  destruct (body mc) as [[a|[]] m]; cbn [snd]; auto.
Qed.

Lemma serve_sent ws frames ending mc :
  sent (world (run (serve ws frames ending) mc)) =
  sent (world (run (loop ws true frames ending)
                 (run (logger INFO "Incoming connection from {remote_addr}") mc))).
Proof.
  unfold _handle_connection. unfold run at 1. unfold bind at 1.
  unfold run at 2.
  destruct (logger INFO "Incoming connection from {remote_addr}" mc)
    as [[[]|e] m] eqn:L; cbn [snd].
  - apply try_except_closed_sent; intros mc'; destruct_machine mc';
      py_cases; reflexivity.
  - unfold logger, bind, get_world, modify_world in L. discriminate L.
Qed.

Lemma logger_blind lvl text mc1 mc2 :
  blind mc1 = blind mc2 ->
  blind (run (logger lvl text) mc1) = blind (run (logger lvl text) mc2).
Proof.
  intros H. destruct_machine mc1. destruct_machine mc2.
  destruct ses as [[]|], ses0 as [[]|]; blind_equal H; try discriminate;
    unfold blind, blind_session; py; reflexivity.
Qed.

(** Two responders that differ in the secret only write the same frames
    on a connection up to the first AUTH_RESULT. *)
Lemma serve_before_auth_result ws frames ending mc1 mc2 :
  blind mc1 = blind mc2 ->
  before_auth_result (sent (world (run (serve ws frames ending) mc1))) =
  before_auth_result (sent (world (run (serve ws frames ending) mc2))).
Proof.
  intros H. rewrite !serve_sent.
  eapply agree_before, loop_agree, logger_blind, H.
Qed.

Lemma skipn_length_app {A} (l l' : list A) : skipn (length l) (l ++ l') = l'.
Proof. induction l; cbn; auto. Qed.

Lemma request_reply_written gen secret sid ts pl ws is_server mc :
  written (handle {| type := MessageType.CONNECTION_REQUEST; session_id := sid;
                     timestamp := ts; payload := pl |} ws is_server)
    (with_secret gen secret mc) = request_reply sid ws mc.
Proof.
  destruct_machine mc. unfold written, request_reply, with_secret, error_in.
  py_cases; rewrite ?skipn_length_app, ?skipn_all; reflexivity.
Qed.

(** C7: whatever passphrases the provider yields and whatever
    passphrase the session holds, the responder answers a
    CONNECTION_REQUEST with the same frames, none of which has a
    passphrase field; and on a whole connection the frames written
    before the first AUTH_RESULT are the same. *)
Theorem secret_stays_off_the_wire gen1 secret1 gen2 secret2 mc
    sid ts pl ws is_server frames ending :
  let mc1 := with_secret gen1 secret1 mc in
  let mc2 := with_secret gen2 secret2 mc in
  let request := {| type := MessageType.CONNECTION_REQUEST; session_id := sid;
                    timestamp := ts; payload := pl |} in
  (written (handle request ws is_server) mc1 = request_reply sid ws mc /\
   written (handle request ws is_server) mc2 = request_reply sid ws mc /\
   Forall (fun f => dict_has (payload (snd f)) "passphrase" = false)
     (request_reply sid ws mc)) /\
  before_auth_result (sent (world (run (serve ws frames ending) mc1))) =
  before_auth_result (sent (world (run (serve ws frames ending) mc2))).
Proof.
  cbv zeta. split; [split; [|split]|].
  - apply request_reply_written.
  - apply request_reply_written.
  - unfold request_reply, error_in.
    destruct (is_closed ws (world mc)); [constructor|].
    destruct (ConnectionState.eqb _ _); repeat constructor.
  - apply serve_before_auth_result, blind_with_secret.
Qed.

End Secrecy.

(* ------------------------------------------------------------------ *)
(** ** The properties on concrete machines *)

Lemma connection_request_rejected_when_connected_witness :
  type Run.second_request = MessageType.CONNECTION_REQUEST /\
  _state (self Sample.connected) = ConnectionState.CONNECTED /\
  is_closed 2%nat (world Sample.connected) = false /\
  rejected_with "Already connected to another peer" "ALREADY_CONNECTED"
    (Run.handle Run.second_request 2%nat true) 2%nat Sample.connected.
Proof.
  split; [reflexivity|]. split; [reflexivity|]. split; [reflexivity|].
  apply (@connection_request_rejected_when_connected Sample.PORT
           Sample.validate_passphrase Run.second_request 2%nat true
           Sample.connected); reflexivity.
Defined.

(** C1 fails in state CHALLENGE_SENT: the second request is not turned
    away.  It replaces the session of the first, and the frame that goes
    out is a CHALLENGE_RESPONSE. *)
Lemma connection_request_overwrites_pending_handshake :
  let after := run (Run.handle Run.second_request 2%nat true) Sample.challenged in
  _state (self Sample.challenged) <> ConnectionState.DISCONNECTED /\
  option_map cs_session_id (_current_session (self Sample.challenged)) = Some "s1" /\
  option_map cs_session_id (_current_session (self after)) = Some "s2" /\
  map (fun f => type (snd f)) (sent (world after)) = [MessageType.CHALLENGE_RESPONSE] /\
  ~ rejected_with "Already connected to another peer" "ALREADY_CONNECTED"
      (Run.handle Run.second_request 2%nat true) 2%nat Sample.challenged.
Proof.
  cbv zeta. split; [discriminate|]. split; [reflexivity|].
  split; [reflexivity|]. split; [reflexivity|].
  intros (_ & Hself & _).
  apply (f_equal (fun s => option_map cs_session_id (_current_session s))) in Hself.
  vm_compute in Hself. discriminate Hself.
Qed.

Lemma auth_attempt_with_wrong_passphrase_witness :
  type Run.wrong_attempt = MessageType.AUTH_ATTEMPT /\
  _state (self Sample.challenged) = ConnectionState.CHALLENGE_SENT /\
  _current_session (self Sample.challenged) = Some Sample.held /\
  session_id Run.wrong_attempt = cs_session_id Sample.held /\
  Sample.validate_passphrase
    (dict_get (payload Run.wrong_attempt) "passphrase" (VStr ""))
    (passphrase Sample.held) = false /\
  is_closed 1%nat (world Sample.challenged) = false /\
  auth_refused Run.wrong_attempt 1%nat
    (Run.handle Run.wrong_attempt 1%nat true) Sample.challenged.
Proof.
  split; [reflexivity|]. split; [reflexivity|]. split; [reflexivity|].
  split; [reflexivity|]. split; [reflexivity|]. split; [reflexivity|].
  apply (@auth_attempt_with_wrong_passphrase Sample.PORT
           Sample.validate_passphrase Run.wrong_attempt 1%nat true
           Sample.held Sample.challenged); reflexivity.
Defined.

Lemma foreign_session_id_witness :
  _current_session (self Sample.challenged) = Some Sample.held /\
  session_id Run.foreign_attempt <> cs_session_id Sample.held /\
  type Run.foreign_attempt = MessageType.AUTH_ATTEMPT /\
  is_closed 1%nat (world Sample.challenged) = false /\
  rejected_with "Invalid session" "INVALID_SESSION"
    (Run.handle Run.foreign_attempt 1%nat true) 1%nat Sample.challenged.
Proof.
  split; [reflexivity|]. split; [discriminate|]. split; [reflexivity|].
  split; [reflexivity|].
  apply (@foreign_session_id Sample.PORT Sample.validate_passphrase
           Run.foreign_attempt 1%nat true Sample.held Sample.challenged);
    [reflexivity|discriminate|reflexivity|reflexivity].
Defined.

(** C3 fails for CHALLENGE_RESPONSE: an initiator in AWAITING_CHALLENGE
    that holds session s1 gets a challenge response under another
    session_id.  The state advances to AWAITING_AUTH_INPUT and no ERROR
    frame (no frame at all) is written. *)
Lemma foreign_challenge_response_advances :
  let after := run (Run.handle Run.foreign_challenge 1%nat false) Sample.awaiting in
  option_map cs_session_id (_current_session (self Sample.awaiting)) = Some "s1" /\
  session_id Run.foreign_challenge = "zzz" /\
  _state (self Sample.awaiting) = ConnectionState.AWAITING_CHALLENGE /\
  _state (self after) = ConnectionState.AWAITING_AUTH_INPUT /\
  sent (world after) = [].
Proof.
  cbv zeta. repeat split.
Qed.

(** C4 fails: on a connected machine two calls of disconnect() emit two
    disconnected events, and so does one call after the transport broke
    the connection off (on the server side and on the client side) or
    after the disconnect path ran for another reason. *)
Lemma disconnect_twice_fires_twice :
  let twice := run disconnect_peer (run disconnect_peer Sample.connected) in
  let after := run disconnect_peer (run _handle_disconnect Sample.connected) in
  let served := run disconnect_peer
                  (run (Run.serve 1%nat [] AbruptClose) Sample.connected) in
  let listened :=
    run disconnect_peer
      (run (_client_listen Sample.PORT Sample.validate_passphrase
              Sample.from_bytes Sample.from_json 1%nat [] AbruptClose)
         Sample.connected) in
  count_event "disconnected" (events (world Sample.connected)) = 0%nat /\
  count_event "disconnected" (events (world twice)) = 2%nat /\
  count_event "disconnected" (events (world after)) = 2%nat /\
  count_event "disconnected" (events (world served)) = 2%nat /\
  count_event "disconnected" (events (world listened)) = 2%nat /\
  _state (self twice) = ConnectionState.DISCONNECTED.
Proof.
  cbv zeta. repeat split.
Qed.

Lemma unhandled_message_is_ignored_witness :
  unhandled (type Run.a_file_transfer) (_state (self Sample.connected)) = true /\
  ignored (Run.handle Run.a_file_transfer 1%nat true) Sample.connected.
Proof.
  split; [reflexivity|].
  apply (@unhandled_message_is_ignored Sample.PORT Sample.validate_passphrase
           Run.a_file_transfer 1%nat true Sample.connected); reflexivity.
Defined.

(** C5 fails on its own examples: a PING that reaches a machine in
    DISCONNECTED is answered with a PONG, and an AUTH_RESULT that reaches
    it moves it to CONNECTED. *)
Lemma ping_and_auth_result_outside_their_state :
  let pinged := run (Run.handle Run.a_ping 3%nat true) Sample.idle in
  let result := Sample.inbound MessageType.AUTH_RESULT "s9" [("success", VBool true)] in
  let authed := run (Run.handle result 3%nat false) Sample.idle in
  _state (self Sample.idle) = ConnectionState.DISCONNECTED /\
  map (fun f => (fst f, type (snd f))) (sent (world pinged)) =
    [(3%nat, MessageType.PONG)] /\
  _state (self authed) = ConnectionState.CONNECTED /\
  ~ ignored (Run.handle Run.a_ping 3%nat true) Sample.idle.
Proof.
  cbv zeta. split; [reflexivity|]. split; [reflexivity|]. split; [reflexivity|].
  intros (_ & _ & _ & _ & Hsent & _). vm_compute in Hsent. discriminate Hsent.
Qed.

Lemma undecodable_frame_disconnects_witness :
  decode Sample.from_bytes Sample.from_json Run.garbage = Invalid "validation error" /\
  connection_dropped Run.serve "Error handling connection: {e}"
    1%nat Run.garbage [Text "ping"] CleanClose Sample.connected /\
  connection_dropped
    (_client_listen Sample.PORT Sample.validate_passphrase Sample.from_bytes
       Sample.from_json)
    "Client error: {e}" 1%nat Run.garbage [Text "ping"] CleanClose Sample.connected.
Proof.
  split; [reflexivity|].
  apply (@undecodable_frame_disconnects Sample.PORT Sample.validate_passphrase
           Sample.from_bytes Sample.from_json 1%nat Run.garbage [Text "ping"]
           CleanClose "validation error" Sample.connected); reflexivity.
Defined.

(** C6 fails: a frame that does not decode, arriving on the socket of an
    established connection, takes the machine from CONNECTED to
    DISCONNECTED, clears session and peer, and the ping that follows it
    on the same socket is never answered. *)
Lemma undecodable_frame_tears_connection_down :
  let after := run (Run.serve 1%nat [Run.garbage; Text "ping"] CleanClose)
                 Sample.connected in
  let healthy := run (Run.serve 1%nat [Text "ping"] CleanClose) Sample.connected in
  _state (self Sample.connected) = ConnectionState.CONNECTED /\
  _state (self after) = ConnectionState.DISCONNECTED /\
  _current_session (self after) = None /\
  _peer (self after) = None /\
  sent (world after) = [] /\
  map (fun f => (fst f, type (snd f))) (sent (world healthy)) =
    [(1%nat, MessageType.PONG)].
Proof.
  cbv zeta. repeat split.
Qed.

Lemma connect_to_when_busy_witness :
  _state (self Sample.connected) <> ConnectionState.DISCONNECTED /\
  no_effect (connect_to "10.0.0.7" 8765) Sample.connected.
Proof.
  split; [discriminate|].
  apply (@connect_to_when_busy "10.0.0.7" 8765%Z Sample.connected).
  discriminate.
Defined.

(* ------------------------------------------------------------------ *)
(** ** A refusal that cannot be written *)

Module Guessing.

Import Sample Guess.

Lemma gone_is_closed ws n mc :
  closed (world mc) = gone n -> In ws (gone n) -> is_closed ws (world mc) = true.
Proof.
  intros Hc Hin. unfold is_closed. rewrite Hc. apply existsb_exists.
  exists ws. split; [assumption|apply Nat.eqb_refl].
Qed.

Lemma first_is_open n mc :
  closed (world mc) = gone n -> is_closed 1%nat (world mc) = false.
Proof.
  intros Hc. unfold is_closed. rewrite Hc.
  destruct (existsb (Nat.eqb 1%nat) (gone n)) eqn:E; [|reflexivity].
  apply existsb_exists in E as (x & Hin & Heq).
  apply in_seq in Hin. apply Nat.eqb_eq in Heq. lia.
Qed.

(** One wrong attempt on a socket that is closed for writing: the
    handler of the connection returns, and the server object and the
    traces of frames and events are what they were. *)
Lemma wrong_guess_changes_nothing ws mc :
  is_closed ws (world mc) = true ->
  waiting mc ->
  outcome (wrong_guess ws) mc = Return tt /\
  waiting (run (wrong_guess ws) mc) /\
  closed (world (run (wrong_guess ws) mc)) = closed (world mc).
Proof.
  intros Hc (Hs & Hw & He). destruct mc as [s w]. cbn [self world] in *. subst s.
  destruct w as [clock ids idc gen genc dl cl snt evs lgs tks cnc].
  py_in Hc. py_in Hw. py_in He. subst.
  unfold wrong_guess, waiting, challenged, server.
  pw.
  change (from_json "wrong") with (Valid Case.held_wrong_attempt).
  unfold Case.held_wrong_attempt, inbound, held.
  pw. ground. pw. rewrite Hc. pw. ground. pw.
  repeat split.
Qed.

Lemma wrong_guesses_change_nothing wss : forall mc,
  (forall ws, In ws wss -> is_closed ws (world mc) = true) ->
  waiting mc ->
  outcome (wrong_guesses wss) mc = Return tt /\
  waiting (run (wrong_guesses wss) mc) /\
  closed (world (run (wrong_guesses wss) mc)) = closed (world mc).
Proof.
  induction wss as [|ws rest IH]; intros mc Hc Hw.
  - repeat split; apply Hw.
  - destruct (@wrong_guess_changes_nothing ws mc) as (R & W & C);
      [apply Hc; left; reflexivity|assumption|].
    destruct (IH (run (wrong_guess ws) mc)) as (R' & W' & C');
      [|assumption|].
    { intros ws' Hin. unfold is_closed. rewrite C. apply Hc. right. assumption. }
    revert R W C R' W' C'. unfold run, outcome. cbn [wrong_guesses]. unfold bind.
    destruct (wrong_guess ws mc) as [r m]. cbn [fst snd].
    intros -> W C R' W' C'. rewrite C' , C. auto.
Qed.

(** The right attempt on the open socket 1, to a responder that still
    waits. *)
Lemma right_guess_connects mc :
  is_closed 1%nat (world mc) = false ->
  waiting mc ->
  outcome right_guess mc = Return tt /\
  _state (self (run right_guess mc)) = ConnectionState.CONNECTED /\
  count_event "connected" (events (world (run right_guess mc))) = 1%nat.
Proof.
  intros Hc (Hs & Hw & He). destruct mc as [s w]. cbn [self world] in *. subst s.
  destruct w as [clock ids idc gen genc dl cl snt evs lgs tks cnc].
  py_in Hc. py_in Hw. py_in He. subst.
  unfold right_guess, challenged, server.
  pw.
  change (from_json "right") with (Valid Case.held_attempt).
  unfold Case.held_attempt, inbound, held.
  pw. ground. pw. rewrite Hc. pw. ground. pw.
  repeat split.
Qed.

End Guessing.

(** C9 fails when the refusal cannot be written.  A responder in
    CHALLENGE_SENT gets a matching AUTH_ATTEMPT with a wrong passphrase on
    a socket that is closed for writing: the handler raises at the send of
    AUTH_RESULT, no frame is written, auth_failed is not emitted, the
    state stays CHALLENGE_SENT and the Session is kept.  So any number [n]
    of wrong attempts, each on a connection of its own that breaks off
    after its frame, leave the responder waiting with the secret it had,
    and the right attempt after them is accepted. *)
Theorem wrong_attempt_on_closed_socket_keeps_the_session n :
  let attempt := Case.handle Case.held_wrong_attempt 2%nat true in
  let guesses := Guess.wrong_guesses (Guess.gone n) in
  let guessed := run guesses (Guess.challenged_cut n) in
  (outcome attempt (Guess.challenged_cut 1) = Raise ConnectionClosed /\
   self (run attempt (Guess.challenged_cut 1)) = self Sample.challenged /\
   sent (world (run attempt (Guess.challenged_cut 1))) = [] /\
   events (world (run attempt (Guess.challenged_cut 1))) = []) /\
  (outcome guesses (Guess.challenged_cut n) = Return tt /\
   _state (self guessed) = ConnectionState.CHALLENGE_SENT /\
   _current_session (self guessed) = Some Sample.held /\
   sent (world guessed) = [] /\
   events (world guessed) = [] /\
   outcome Guess.right_guess guessed = Return tt /\
   _state (self (run Guess.right_guess guessed)) = ConnectionState.CONNECTED).
Proof.
  cbv zeta. split; [repeat split|].
  assert (W0 : Guess.waiting (Guess.challenged_cut n)) by (repeat split).
  destruct (@Guessing.wrong_guesses_change_nothing (Guess.gone n)
              (Guess.challenged_cut n)) as (R & (Hs & Hw & He) & C);
    [intros ws Hin; now apply Guessing.gone_is_closed with (n := n)|assumption|].
  destruct (@Guessing.right_guess_connects
              (run (Guess.wrong_guesses (Guess.gone n)) (Guess.challenged_cut n)))
    as (R' & S' & _);
    [now apply Guessing.first_is_open with (n := n)|repeat split; assumption|].
  rewrite Hs. repeat split; assumption.
Qed.

(* ------------------------------------------------------------------ *)
(** * Further properties of the connection protocol *)

(** ** The responder *)

Lemma skipn_past {A} (l l' : list A) : skipn (length l) (l ++ l') = l'.
Proof. induction l; cbn [length skipn app]; auto. Qed.

Lemma skipn_whole {A} (l : list A) : skipn (length l) l = [].
Proof. induction l; cbn [length skipn]; auto. Qed.

(** The frames written, read off a goal about [skipn]. *)
Ltac frames :=
  rewrite <- ?app_assoc;
  rewrite ?skipn_past, ?skipn_whole.

Lemma not_connected st :
  st <> ConnectionState.CONNECTED ->
  ConnectionState.eqb st ConnectionState.CONNECTED = false.
Proof. destruct st; try congruence; reflexivity. Qed.

Section Responder.

Variable PORT : Z.
Variable validate_passphrase : Value -> string -> bool.

Local Abbreviation handle := (_handle_message PORT validate_passphrase).

(** X1: outside CONNECTED a CONNECTION_REQUEST is accepted whatever the
  state: the session of the request replaces the one held, with the
  peer read off the payload (Unknown, the empty address and PORT for
  the keys that are missing); the state is CHALLENGE_SENT; the
  passphrase shown in challenge_generated is the one stored in the
  session; the CHALLENGE_RESPONSE echoes the session_id. *)
Theorem connection_request_accepted message ws is_server mc :
type message = MessageType.CONNECTION_REQUEST ->
_state (self mc) <> ConnectionState.CONNECTED ->
is_closed ws (world mc) = false ->
let mc' := run (handle message ws is_server) mc in
outcome (handle message ws is_server) mc = Return tt /\
_state (self mc') = ConnectionState.CHALLENGE_SENT /\
_current_session (self mc') =
  Some (session_for PORT message ws (next_secret mc)) /\
_peer (self mc') = _peer (self mc) /\
_websocket (self mc') = _websocket (self mc) /\
events (world mc') = events (world mc) ++
  [state_changed (_state (self mc)) ConnectionState.CHALLENGE_SENT;
   ("challenge_generated",
    [("session_id", VStr (session_id message));
     ("passphrase", VStr (next_secret mc));
     ("peer_name", dict_get (payload message) "sender_name" (VStr "Unknown"))])] /\
written (handle message ws is_server) mc =
  [(ws, {| type := MessageType.CHALLENGE_RESPONSE;
           session_id := session_id message;
           timestamp := now (world mc);
           payload :=
             [("receiver_name", VStr (device_name (self mc)));
              ("message",
               VStr "Enter the passphrase shown on the other device")] |})].
Proof.
intros Ht Hs Hc. destruct_machine mc. destruct_message message.
py_in Ht. py_in Hs. py_in Hc. subst.
apply not_connected in Hs.
px_keep. rewrite Hs. px_keep. rewrite Hc. px_keep. frames. auto 10.
Qed.

(** X2: an AUTH_ATTEMPT that finds no session held is answered with
  ERROR NO_SESSION and changes nothing, in every state. *)
Theorem auth_attempt_without_session message ws is_server mc :
type message = MessageType.AUTH_ATTEMPT ->
_current_session (self mc) = None ->
is_closed ws (world mc) = false ->
rejected_with "No active session" "NO_SESSION"
  (handle message ws is_server) ws mc.
Proof.
intros Ht Hs Hc. destruct_machine mc. destruct_message message.
py_in Ht. py_in Hs. py_in Hc. subst.
unfold rejected_with. px. rewrite Hc. px. auto.
Qed.

(** X3: an AUTH_ATTEMPT on the held session with a passphrase that
  validates connects, in every state: the socket of the attempt and
  the peer of the session become the connection, AUTH_RESULT with
  success true goes out, connected is emitted after state_changed, a
  heartbeat task is created, and the session stays held. *)
Theorem auth_attempt_accepted message ws is_server session mc :
type message = MessageType.AUTH_ATTEMPT ->
_current_session (self mc) = Some session ->
session_id message = cs_session_id session ->
validate_passphrase (dict_get (payload message) "passphrase" (VStr ""))
  (passphrase session) = true ->
is_closed ws (world mc) = false ->
let mc' := run (handle message ws is_server) mc in
outcome (handle message ws is_server) mc = Return tt /\
_state (self mc') = ConnectionState.CONNECTED /\
_websocket (self mc') = Some ws /\
_peer (self mc') = peer_info session /\
_current_session (self mc') = Some session /\
_ping_task (self mc') = Some (length (tasks (world mc))) /\
tasks (world mc') = tasks (world mc) ++ [PingLoop] /\
written (handle message ws is_server) mc =
  [(ws, {| type := MessageType.AUTH_RESULT;
           session_id := session_id message;
           timestamp := now (world mc);
           payload := [("success", VBool true);
                       ("message", VStr "Connected!")] |})] /\
events (world mc') = events (world mc) ++
  [state_changed (_state (self mc)) ConnectionState.CONNECTED;
   ("connected",
    [("peer_name", match peer_info session with
                   | Some p => name p
                   | None => VStr "Unknown"
                   end);
     ("peer_ip", match peer_info session with
                 | Some p => ip p
                 | None => VStr ""
                 end)])].
Proof.
intros Ht Hs Hid Hv Hc. destruct_machine mc. destruct_message message.
destruct session as [sid' pass pinfo cst].
py_in Ht. py_in Hs. py_in Hid. py_in Hv. py_in Hc. subst.
px. rewrite String.eqb_refl. px. rewrite Hv. px. rewrite Hc. px.
frames. auto 10.
Qed.

(** X4: the responder's side of a handshake.  A request that is
  accepted, followed on the same socket by an attempt that carries the
  passphrase just generated, ends in CONNECTED on that socket, and the
  two frames written are the CHALLENGE_RESPONSE and the AUTH_RESULT
  with success true. *)
Theorem responder_handshake request attempt ws mc :
type request = MessageType.CONNECTION_REQUEST ->
type attempt = MessageType.AUTH_ATTEMPT ->
session_id attempt = session_id request ->
dict_get (payload attempt) "passphrase" (VStr "") = VStr (next_secret mc) ->
validate_passphrase (VStr (next_secret mc)) (next_secret mc) = true ->
_state (self mc) <> ConnectionState.CONNECTED ->
is_closed ws (world mc) = false ->
let both := handle request ws true ;; handle attempt ws true in
outcome both mc = Return tt /\
_state (self (run both mc)) = ConnectionState.CONNECTED /\
_websocket (self (run both mc)) = Some ws /\
_peer (self (run both mc)) =
  peer_info (session_for PORT request ws (next_secret mc)) /\
map frame_summary (written both mc) =
  [(ws, MessageType.CHALLENGE_RESPONSE, VNone, VNone);
   (ws, MessageType.AUTH_RESULT, VNone, VBool true)].
Proof.
intros Ht Ht' Hid Hp Hv Hs Hc. destruct_machine mc.
destruct request as [ty sid ts pl]. destruct attempt as [ty' sid' ts' pl'].
py_in Ht. py_in Ht'. py_in Hid. py_in Hs. py_in Hc.
unfold next_secret in Hp, Hv. py_in Hp. py_in Hv. subst.
apply not_connected in Hs.
px_keep. rewrite Hs. px_keep. rewrite Hc. px_keep.
rewrite String.eqb_refl. px_keep. rewrite Hp, Hv. px_keep.
rewrite Hc. px. frames. auto 10.
Qed.

(** X5: a refusal that is written uses the challenge up.  When a
  request, a wrong attempt on its session and one more AUTH_ATTEMPT
  arrive on one socket that is open for writing, the frames written are
  CHALLENGE_RESPONSE, AUTH_RESULT with success false and ERROR
  NO_SESSION: the session is gone after the refusal, so the last
  attempt, with the right passphrase too, is not checked, and the state
  stays DISCONNECTED.  On a socket that is closed for writing the
  refusal raises before the session is cleared; that case is not
  covered here. *)
Theorem no_second_attempt request wrong again ws mc :
type request = MessageType.CONNECTION_REQUEST ->
type wrong = MessageType.AUTH_ATTEMPT ->
type again = MessageType.AUTH_ATTEMPT ->
session_id wrong = session_id request ->
validate_passphrase (dict_get (payload wrong) "passphrase" (VStr ""))
  (next_secret mc) = false ->
_state (self mc) <> ConnectionState.CONNECTED ->
is_closed ws (world mc) = false ->
let all := handle request ws true ;; handle wrong ws true ;;
           handle again ws true in
outcome all mc = Return tt /\
_state (self (run all mc)) = ConnectionState.DISCONNECTED /\
_current_session (self (run all mc)) = None /\
map frame_summary (written all mc) =
  [(ws, MessageType.CHALLENGE_RESPONSE, VNone, VNone);
   (ws, MessageType.AUTH_RESULT, VNone, VBool false);
   (ws, MessageType.ERROR, VStr "NO_SESSION", VNone)].
Proof.
intros Ht Ht' Ht'' Hid Hv Hs Hc. destruct_machine mc.
destruct request as [ty sid ts pl]. destruct wrong as [ty' sid' ts' pl'].
destruct again as [ty'' sid'' ts'' pl''].
py_in Ht. py_in Ht'. py_in Ht''. py_in Hid. py_in Hs. py_in Hc.
unfold next_secret in Hv. py_in Hv. subst.
apply not_connected in Hs.
px_keep. rewrite Hs. px_keep. rewrite Hc. px_keep.
rewrite String.eqb_refl. px_keep. rewrite Hv. px_keep.
rewrite Hc. px_keep. rewrite Hc. px. frames. auto 10.
Qed.

(** X6: the session outlives the handshake, so a connected responder
  still answers attempts on it.  One with a wrong passphrase puts the
  state at DISCONNECTED and clears the session, while the peer, the
  socket and the heartbeat task stay as they were and no disconnected
  event is emitted. *)
Theorem wrong_attempt_while_connected message ws is_server session mc :
type message = MessageType.AUTH_ATTEMPT ->
_state (self mc) = ConnectionState.CONNECTED ->
_current_session (self mc) = Some session ->
session_id message = cs_session_id session ->
validate_passphrase (dict_get (payload message) "passphrase" (VStr ""))
  (passphrase session) = false ->
is_closed ws (world mc) = false ->
let mc' := run (handle message ws is_server) mc in
_state (self mc') = ConnectionState.DISCONNECTED /\
_current_session (self mc') = None /\
_peer (self mc') = _peer (self mc) /\
_websocket (self mc') = _websocket (self mc) /\
_ping_task (self mc') = _ping_task (self mc) /\
cancelled (world mc') = cancelled (world mc) /\
count_event "disconnected" (events (world mc')) =
  count_event "disconnected" (events (world mc)).
Proof.
intros Ht Hs Hses Hid Hv Hc. destruct_machine mc. destruct_message message.
destruct session as [sid' pass pinfo cst].
py_in Ht. py_in Hs. py_in Hses. py_in Hid. py_in Hv. py_in Hc. subst.
px. rewrite String.eqb_refl. px. rewrite Hv. px. rewrite Hc. px.
repeat split. rewrite <- !app_assoc, count_event_app. cbn. lia.
Qed.

End Responder.

(* ------------------------------------------------------------------ *)
(** ** The initiator *)

Section Initiator.

Variable PORT : Z.
Variable validate_passphrase : Value -> string -> bool.

Local Abbreviation handle := (_handle_message PORT validate_passphrase).

(** X7: connect_to from DISCONNECTED, when the dial succeeds: the state
  is AWAITING_CHALLENGE, the CONNECTION_REQUEST on the new socket
  names this device and its port under a fresh session_id, the session
  held carries that same session_id and an empty passphrase, the peer
  is the dialled address, and a listener task is created for the
  socket. *)
Theorem connect_to_dials host port' ws mc :
_state (self mc) = ConnectionState.DISCONNECTED ->
dial (world mc) host port' = Return ws ->
is_closed ws (world mc) = false ->
let mc' := run (connect_to host port') mc in
outcome (connect_to host port') mc = Return tt /\
_state (self mc') = ConnectionState.AWAITING_CHALLENGE /\
_peer (self mc') = Some (dialled_peer host port' ws) /\
_current_session (self mc') =
  Some {| cs_session_id := next_uuid mc; passphrase := "";
          peer_info := Some (dialled_peer host port' ws);
          cs_state := ConnectionState.DISCONNECTED |} /\
_websocket (self mc') = _websocket (self mc) /\
written (connect_to host port') mc =
  [(ws, {| type := MessageType.CONNECTION_REQUEST;
           session_id := next_uuid mc;
           timestamp := now (world mc);
           payload := [("sender_name", VStr (device_name (self mc)));
                       ("sender_ip", VStr "");
                       ("sender_port", VInt (port (self mc)))] |})] /\
tasks (world mc') = tasks (world mc) ++ [ClientListen ws] /\
events (world mc') = events (world mc) ++
  [state_changed ConnectionState.DISCONNECTED
     ConnectionState.AWAITING_CHALLENGE].
Proof.
intros Hs Hd Hc. destruct_machine mc.
py_in Hs. py_in Hd. py_in Hc. subst.
pi. rewrite Hd. pi. rewrite Hc. pi. frames. auto 10.
Qed.

(** X8: connect_to from DISCONNECTED, when the dial raises: the state
  ends at ERROR, by way of AWAITING_CHALLENGE, and connection_error
  carries the text of the exception; nothing is sent, no session and
  no peer is noted, no task is created, and connect_to returns. *)
Theorem connect_to_fails host port' msg mc :
_state (self mc) = ConnectionState.DISCONNECTED ->
dial (world mc) host port' = Raise (Exception msg) ->
let mc' := run (connect_to host port') mc in
outcome (connect_to host port') mc = Return tt /\
_state (self mc') = ConnectionState.ERROR /\
_current_session (self mc') = _current_session (self mc) /\
_peer (self mc') = _peer (self mc) /\
sent (world mc') = sent (world mc) /\
tasks (world mc') = tasks (world mc) /\
events (world mc') = events (world mc) ++
  [state_changed ConnectionState.DISCONNECTED ConnectionState.AWAITING_CHALLENGE;
   state_changed ConnectionState.AWAITING_CHALLENGE ConnectionState.ERROR;
   ("connection_error", [("error", VStr msg)])].
Proof.
intros Hs Hd. destruct_machine mc. py_in Hs. py_in Hd. subst.
pi. rewrite Hd. pi. cbv [Exn_str]. rewrite <- !app_assoc. auto 10.
Qed.

(** X9: ERROR is left by disconnecting only.  After a connect_to that
  failed, a second connect_to does nothing, whatever it would dial;
  after disconnect() the state is DISCONNECTED again. *)
Theorem error_state_needs_disconnect host port' msg host2 port2 mc :
_state (self mc) = ConnectionState.DISCONNECTED ->
dial (world mc) host port' = Raise (Exception msg) ->
let failed := run (connect_to host port') mc in
no_effect (connect_to host2 port2) failed /\
_state (self (run disconnect_peer failed)) = ConnectionState.DISCONNECTED.
Proof.
intros Hs Hd. cbv zeta. split.
- destruct_machine mc. py_in Hs. py_in Hd. subst.
  pi. rewrite Hd. pi. auto 10.
- apply disconnect_peer_spec.
Qed.

(** X10: a CHALLENGE_RESPONSE in AWAITING_CHALLENGE moves the state to
  AWAITING_AUTH_INPUT and asks the user for the passphrase under the
  session_id of the message, naming the peer Unknown when the payload
  has no receiver_name; session and peer are untouched and nothing is
  sent. *)
Theorem challenge_response_accepted message ws is_server mc :
type message = MessageType.CHALLENGE_RESPONSE ->
_state (self mc) = ConnectionState.AWAITING_CHALLENGE ->
let mc' := run (handle message ws is_server) mc in
outcome (handle message ws is_server) mc = Return tt /\
_state (self mc') = ConnectionState.AWAITING_AUTH_INPUT /\
_current_session (self mc') = _current_session (self mc) /\
_peer (self mc') = _peer (self mc) /\
sent (world mc') = sent (world mc) /\
events (world mc') = events (world mc) ++
  [state_changed ConnectionState.AWAITING_CHALLENGE
     ConnectionState.AWAITING_AUTH_INPUT;
   ("passphrase_required",
    [("session_id", VStr (session_id message));
     ("peer_name",
      dict_get (payload message) "receiver_name" (VStr "Unknown"))])].
Proof.
intros Ht Hs. destruct_machine mc. destruct_message message.
py_in Ht. py_in Hs. subst. px. rewrite <- !app_assoc. auto 10.
Qed.

(** X11: submit_passphrase in AWAITING_AUTH_INPUT, with a session held
  and a peer that has a socket, sends one AUTH_ATTEMPT on the socket
  of the peer, under the session_id held and with the passphrase
  given; the server object is unchanged and no event is emitted. *)
Theorem submit_passphrase_sends secret session peer ws mc :
_state (self mc) = ConnectionState.AWAITING_AUTH_INPUT ->
_current_session (self mc) = Some session ->
_peer (self mc) = Some peer ->
websocket peer = Some ws ->
is_closed ws (world mc) = false ->
let mc' := run (submit_passphrase secret) mc in
outcome (submit_passphrase secret) mc = Return tt /\
self mc' = self mc /\
events (world mc') = events (world mc) /\
written (submit_passphrase secret) mc =
  [(ws, {| type := MessageType.AUTH_ATTEMPT;
           session_id := cs_session_id session;
           timestamp := now (world mc);
           payload := [("passphrase", VStr secret)] |})].
Proof.
intros Hs Hses Hp Hw Hc. destruct_machine mc.
destruct session as [sid' pass pinfo cst]. destruct peer as [pn pip pp pw].
py_in Hs. py_in Hses. py_in Hp. cbv [websocket] in Hw. py_in Hc. subst.
px. rewrite Hc. px. frames. auto.
Qed.

(** X12: outside AWAITING_AUTH_INPUT, submit_passphrase does nothing:
  the passphrase typed by the user is not sent. *)
Theorem submit_passphrase_elsewhere secret mc :
_state (self mc) <> ConnectionState.AWAITING_AUTH_INPUT ->
no_effect (submit_passphrase secret) mc.
Proof.
intros Hs. destruct_machine mc. py_in Hs. unfold no_effect.
destruct st; try congruence; px; auto.
Qed.

(** X13: an AUTH_RESULT whose success is true in the sense of Python
  connects, in every state: the socket it came in on becomes the
  connection, connected is emitted for the peer held (Unknown without
  one), a heartbeat task is created, nothing is sent. *)
Theorem auth_result_success message ws is_server mc :
type message = MessageType.AUTH_RESULT ->
truthy (dict_get (payload message) "success" (VBool false)) = true ->
let mc' := run (handle message ws is_server) mc in
outcome (handle message ws is_server) mc = Return tt /\
_state (self mc') = ConnectionState.CONNECTED /\
_websocket (self mc') = Some ws /\
_peer (self mc') = _peer (self mc) /\
_current_session (self mc') = _current_session (self mc) /\
_ping_task (self mc') = Some (length (tasks (world mc))) /\
tasks (world mc') = tasks (world mc) ++ [PingLoop] /\
sent (world mc') = sent (world mc) /\
events (world mc') = events (world mc) ++
  [state_changed (_state (self mc)) ConnectionState.CONNECTED;
   ("connected",
    [("peer_name", match _peer (self mc) with
                   | Some p => name p
                   | None => VStr "Unknown"
                   end);
     ("peer_ip", match _peer (self mc) with
                 | Some p => ip p
                 | None => VStr ""
                 end)])].
Proof.
intros Ht Hv. destruct_machine mc. destruct_message message.
py_in Ht. py_in Hv. subst. px_keep. rewrite Hv. px.
rewrite <- !app_assoc. auto 10.
Qed.

Lemma dict_get_missing (d : Dict) key default :
dict_has d key = false -> dict_get d key default = default.
Proof.
induction d as [|[k v] d IH]; cbn [dict_has dict_get]; [reflexivity|].
destruct (String.eqb k key); [discriminate|exact IH].
Qed.

(** X14: an AUTH_RESULT without a success key, or with one that is
  false in the sense of Python, is a failure in every state: the state
  is ERROR, auth_failed gives the message of the payload as its reason
  (Authentication failed without one), the socket, the session and the
  peer are kept, no heartbeat is started and nothing is sent. *)
Theorem auth_result_failure message ws is_server mc :
type message = MessageType.AUTH_RESULT ->
dict_has (payload message) "success" = false \/
truthy (dict_get (payload message) "success" (VBool false)) = false ->
let mc' := run (handle message ws is_server) mc in
outcome (handle message ws is_server) mc = Return tt /\
_state (self mc') = ConnectionState.ERROR /\
_websocket (self mc') = _websocket (self mc) /\
_peer (self mc') = _peer (self mc) /\
_current_session (self mc') = _current_session (self mc) /\
_ping_task (self mc') = _ping_task (self mc) /\
tasks (world mc') = tasks (world mc) /\
sent (world mc') = sent (world mc) /\
events (world mc') = events (world mc) ++
  [state_changed (_state (self mc)) ConnectionState.ERROR;
   ("auth_failed",
    [("reason",
      dict_get (payload message) "message" (VStr "Authentication failed"))])].
Proof.
intros Ht Hv.
assert (Hf : truthy (dict_get (payload message) "success" (VBool false)) = false).
{ destruct Hv as [Hv|Hv]; [|exact Hv].
  now rewrite (dict_get_missing _ _ _ Hv). }
clear Hv. destruct_machine mc. destruct_message message.
py_in Ht. py_in Hf. subst. px_keep. rewrite Hf. px.
rewrite <- !app_assoc. auto 10.
Qed.

(** X15: the initiator's side of a handshake.  connect_to, the
  challenge of the peer, the passphrase of the user and a successful
  AUTH_RESULT end in CONNECTED on the dialled socket, with the dialled
  address as peer.  Two frames were written, the CONNECTION_REQUEST
  and the AUTH_ATTEMPT, both under the session_id made by connect_to,
  whatever session_id the challenge and the result carried. *)
Theorem initiator_handshake host port' ws challenge secret result mc :
_state (self mc) = ConnectionState.DISCONNECTED ->
dial (world mc) host port' = Return ws ->
is_closed ws (world mc) = false ->
type challenge = MessageType.CHALLENGE_RESPONSE ->
type result = MessageType.AUTH_RESULT ->
truthy (dict_get (payload result) "success" (VBool false)) = true ->
let all := connect_to host port' ;; handle challenge ws false ;;
           submit_passphrase secret ;; handle result ws false in
outcome all mc = Return tt /\
_state (self (run all mc)) = ConnectionState.CONNECTED /\
_websocket (self (run all mc)) = Some ws /\
_peer (self (run all mc)) = Some (dialled_peer host port' ws) /\
map frame_session (written all mc) =
  [(ws, MessageType.CONNECTION_REQUEST, next_uuid mc);
   (ws, MessageType.AUTH_ATTEMPT, next_uuid mc)].
Proof.
intros Hs Hd Hc Ht Ht' Hv. destruct_machine mc.
destruct challenge as [ty sid ts pl]. destruct result as [ty' sid' ts' pl'].
py_in Hs. py_in Hd. py_in Hc. py_in Ht. py_in Ht'. py_in Hv. subst.
cbv zeta.
match goal with |- outcome ?c ?m = _ /\ _ => eassert (E : c m = _) end.
{ pi. rewrite Hd. pi. rewrite Hc. px. rewrite Hc. pi. rewrite Hv. pi.
  reflexivity. }
unfold written, run, outcome. rewrite E. pi. frames. auto 10.
Qed.

(** X16: send_notification on a connected machine with an open socket
  sends one NOTIFICATION with the title, the body and no icon; the
  server object is unchanged. *)
Theorem send_notification_sends title body ws mc :
_state (self mc) = ConnectionState.CONNECTED ->
_websocket (self mc) = Some ws ->
is_closed ws (world mc) = false ->
let mc' := run (send_notification title body) mc in
outcome (send_notification title body) mc = Return tt /\
self mc' = self mc /\
events (world mc') = events (world mc) /\
written (send_notification title body) mc =
  [(ws, {| type := MessageType.NOTIFICATION;
           session_id := next_uuid mc;
           timestamp := now (world mc);
           payload := [("title", VStr title); ("body", VStr body);
                       ("icon", VNone)] |})].
Proof.
intros Hs Hw Hc. destruct_machine mc. py_in Hs. py_in Hw. py_in Hc. subst.
pi. px. rewrite Hc. px. frames. auto.
Qed.

(** X17: without a connection (another state, or no socket)
  send_notification does nothing. *)
Theorem send_notification_elsewhere title body mc :
_state (self mc) <> ConnectionState.CONNECTED \/ _websocket (self mc) = None ->
no_effect (send_notification title body) mc.
Proof.
intros H. destruct_machine mc. py_in H. unfold no_effect.
destruct H as [H|H].
- destruct st; try congruence; px; auto.
- subst. destruct st; px; auto.
Qed.

End Initiator.

(* ------------------------------------------------------------------ *)
(** ** The dispatcher, the transport and the life cycle *)

Section Dispatch.

Variable PORT : Z.
Variable validate_passphrase : Value -> string -> bool.
Variable from_bytes : list Byte.byte -> Decoded.
Variable from_json : string -> Decoded.

Local Abbreviation handle := (_handle_message PORT validate_passphrase).
Local Abbreviation serve := (_handle_connection PORT validate_passphrase from_bytes from_json).
Local Abbreviation listen := (_client_listen PORT validate_passphrase from_bytes from_json).

(** X18: whatever the message and the state, handling one inbound
  message writes at most one frame, on the socket the message came in
  on.  A reply other than ERROR echoes the session_id of the message;
  an ERROR reply carries a session_id of its own. *)
Theorem at_most_one_reply message ws is_server mc :
reply_to message ws mc (written (handle message ws is_server) mc).
Proof.
destruct_machine mc. destruct_message message.
destruct ty; pw_cases; frames;
  first [ left; reflexivity
        | right; eexists; split; [reflexivity|]; split; reflexivity ].
Qed.

(** X19: handling an inbound message never changes the connection state
  silently: either the state is the same afterwards, or a
  state_changed event from the old state to the new one is in the
  trace. *)
Theorem state_change_is_announced message ws is_server mc :
let mc' := run (handle message ws is_server) mc in
_state (self mc') = _state (self mc) \/
In (state_changed (_state (self mc)) (_state (self mc')))
   (events (world mc')).
Proof.
destruct_machine mc. destruct_message message.
destruct ty; pw_cases;
  first [ left; reflexivity | right; in_tail ].
Qed.

(** X20: a NOTIFICATION is passed on to the user as it is, in every
  state: its payload is the data of a notification event, the server
  object is unchanged and nothing is sent. *)
Theorem notification_passed_on message ws is_server mc :
type message = MessageType.NOTIFICATION ->
let mc' := run (handle message ws is_server) mc in
outcome (handle message ws is_server) mc = Return tt /\
self mc' = self mc /\
sent (world mc') = sent (world mc) /\
events (world mc') = events (world mc) ++ [("notification", payload message)].
Proof.
intros Ht. destruct_machine mc. destruct_message message.
py_in Ht. subst. px. auto.
Qed.

(** X21: disconnect() with a connection says goodbye when it can: on an
  open socket it writes one DISCONNECT frame with the reason
  User requested disconnect and closes the socket; on a socket that is
  closed already it writes nothing.  Either way it returns and the
  disconnect path has run. *)
Theorem disconnect_peer_says_goodbye ws mc :
_websocket (self mc) = Some ws ->
let mc' := run disconnect_peer mc in
outcome disconnect_peer mc = Return tt /\
torn_down mc mc' /\
is_closed ws (world mc') = true /\
written disconnect_peer mc =
  if is_closed ws (world mc) then []
  else [(ws, {| type := MessageType.DISCONNECT;
                session_id := next_uuid mc;
                timestamp := now (world mc);
                payload := [("reason", VStr "User requested disconnect")] |})].
Proof.
intros Hw. destruct_machine mc. py_in Hw. subst.
destruct (existsb (Nat.eqb ws) cl) eqn:E; pw; rewrite ?E; pw; rewrite ?E;
  pw; destruct ptask; pw; rewrite ?E; frames; fin.
Qed.

(** X22: how a server-side connection ends.  A stream that ends cleanly
  changes nothing.  A stream that breaks off runs the disconnect path
  when its socket is the socket of the connection, and changes nothing
  otherwise: a responder whose peer drops during the handshake stays
  in its state with the session held. *)
Theorem server_stream_ends ws ending mc :
let mc' := run (serve ws [] ending) mc in
outcome (serve ws [] ending) mc = Return tt /\
sent (world mc') = sent (world mc) /\
match ending with
| CleanClose => untouched mc mc'
| AbruptClose => if owns ws mc then torn_down mc mc' else untouched mc mc'
end.
Proof.
destruct_machine mc. destruct ending.
- pw. auto.
- destruct sock as [ws'|]; [destruct (Nat.eqb ws' ws) eqn:E|];
    pw; rewrite ?E; pw; try (destruct ptask; pw); fin.
Qed.

(** X23: how a client-side connection ends.  A stream that breaks off
  runs the disconnect path, whatever the socket.  A stream that ends
  cleanly changes nothing: the state stays what it was, CONNECTED
  included. *)
Theorem client_stream_ends ws ending mc :
let mc' := run (listen ws [] ending) mc in
outcome (listen ws [] ending) mc = Return tt /\
sent (world mc') = sent (world mc) /\
match ending with
| CleanClose => untouched mc mc'
| AbruptClose => torn_down mc mc'
end.
Proof.
destruct_machine mc. destruct ending.
- pw. auto.
- destruct ptask; pw; fin.
Qed.

End Dispatch.

Section HeartbeatEdges.

(** X24: a heartbeat that finds its socket closed takes the error path:
  the failed send is logged, the disconnect path runs, the loop ends,
  and what would have happened during the sleep never runs in this
  turn. *)
Theorem heartbeat_on_closed_socket tid ws others rest mc :
_state (self mc) = ConnectionState.CONNECTED ->
_websocket (self mc) = Some ws ->
is_closed ws (world mc) = true ->
let mc' := run (ping_loop tid (others :: rest)) mc in
outcome (ping_loop tid (others :: rest)) mc = Return Break /\
torn_down mc mc' /\
sent (world mc') = sent (world mc) /\
now (world mc') = now (world mc) /\
In (LOG_ERROR, "Ping error: {e}") (logs (world mc')).
Proof.
intros Hs Hw Hc. destruct_machine mc. py_in Hs. py_in Hw. py_in Hc. subst.
pw. rewrite Hc. pw.
destruct ptask; pw; rewrite <- ?app_assoc; repeat split; auto;
  apply in_or_app; right; cbn [In app]; auto.
Qed.

(** X25: a disconnect that happens while the heartbeat sleeps stops the
  heartbeat for good.  When the disconnect path runs in another task
  during the sleep of heartbeat task [tid], the task gets
  CancelledError out of its sleep and does nothing more: the PING of
  this turn is the one frame written, and disconnected is emitted
  once. *)
Theorem heartbeat_cancelled_in_its_sleep tid ws d rest mc :
beating tid ws mc ->
_ping_task (self mc) = Some tid ->
let others := fun m => run _handle_disconnect (elapse d m) in
let mc' := run (ping_loop tid (others :: rest)) mc in
outcome (ping_loop tid (others :: rest)) mc = Raise CancelledError /\
_state (self mc') = ConnectionState.DISCONNECTED /\
map frame_session (written (ping_loop tid (others :: rest)) mc) =
  [(ws, MessageType.PING, next_uuid mc)] /\
events (world mc') = events (world mc) ++
  [state_changed ConnectionState.CONNECTED ConnectionState.DISCONNECTED;
   ("disconnected", [])].
Proof.
intros (Hs & Hw & Hc & Hk) Hp. destruct_machine mc.
py_in Hs. py_in Hw. py_in Hc. py_in Hk. py_in Hp. subst.
pw. rewrite Hc. pw. cbn [existsb]. rewrite Nat.eqb_refl. cbn [orb]. pw.
frames. fin.
Qed.

(** X26: the heartbeat never sends outside a connection.  Entered in a
  state other than CONNECTED, or without a socket, the loop ends at
  its test: the machine is as it was and the sleep is never
  reached. *)
Theorem heartbeat_needs_connection tid others rest mc :
_state (self mc) <> ConnectionState.CONNECTED \/ _websocket (self mc) = None ->
ping_loop tid (others :: rest) mc = (Return Break, mc).
Proof.
intros H. destruct_machine mc. py_in H. destruct H as [H|H].
- destruct st; try congruence; pw; destruct sock; reflexivity.
- subst. destruct st; pw; reflexivity.
Qed.

End HeartbeatEdges.

Section Lifecycle.

(** X27: stop() from any state: the heartbeat task is cancelled, the
  socket of the connection is closed, the state is DISCONNECTED with
  session and peer cleared, and the listener is down.  The peer is not
  told (no frame is written) and the user gets state_changed and
  server_stopped, not disconnected. *)
Theorem stop_shuts_down l mc :
let mc' := run (stop l) mc in
outcome (stop l) mc = Return {| _server := None; _running := false |} /\
_state (self mc') = ConnectionState.DISCONNECTED /\
_current_session (self mc') = None /\
_peer (self mc') = None /\
_websocket (self mc') = None /\
_ping_task (self mc') = None /\
sent (world mc') = sent (world mc) /\
events (world mc') = events (world mc) ++
  [state_changed (_state (self mc)) ConnectionState.DISCONNECTED;
   ("server_stopped", [])] /\
match _ping_task (self mc) with
| Some tid => existsb (Nat.eqb tid) (cancelled (world mc')) = true
| None => cancelled (world mc') = cancelled (world mc)
end /\
match _websocket (self mc) with
| Some ws => is_closed ws (world mc') = true
| None => closed (world mc') = closed (world mc)
end.
Proof.
destruct_machine mc.
destruct ptask as [tid|], sock as [ws|];
  try (destruct (existsb (Nat.eqb ws) cl) eqn:E);
  pw; rewrite ?E; pw; rewrite ?E; fin.
Qed.

(** X28: start() is guarded by _running.  On a listener that is down
  and can bind, it brings the listener up and emits server_started
  with the port; called again it does nothing, so the event is emitted
  once; the connection state is not touched. *)
Theorem start_once l srv served mc :
_running l = false ->
let twice := l1 <- start l (Return srv) ;; start l1 served in
outcome (start l (Return srv)) mc =
  Return {| _server := Some srv; _running := true |} /\
twice mc = start l (Return srv) mc /\
self (run twice mc) = self mc /\
sent (world (run twice mc)) = sent (world mc) /\
events (world (run twice mc)) = events (world mc) ++
  [("server_started", [("port", VInt (port (self mc)))])].
Proof.
intros Hr. destruct l as [sv rn]. cbv [_running] in Hr. subst.
destruct_machine mc. cbv [_running _server]. pw. cbv [_running]. pw. auto 10.
Qed.

(** X29: start() on a listener that cannot bind lets the exception of
  serve out, and nothing has changed: no event, no log record. *)
Theorem start_that_cannot_bind l e mc :
_running l = false ->
start l (Raise e) mc = (Raise e, mc).
Proof.
intros Hr. destruct l as [sv rn]. cbv [_running] in Hr. subst.
destruct_machine mc. cbv [_running]. pw. reflexivity.
Qed.

(** X30: the status report does not show the secret: it is the same
  for two machines that differ in the passphrases only, and its keys
  are state, device_name, device_type, port, peer and session_id. *)
Theorem get_status_hides_the_secret gen secret mc :
get_status (self (with_secret gen secret mc)) = get_status (self mc) /\
map fst (get_status (self mc)) =
  ["state"; "device_name"; "device_type"; "port"; "peer"; "session_id"].
Proof.
destruct_machine mc. unfold with_secret.
destruct ses as [[]|]; pw; cbn [map fst]; auto.
Qed.

End Lifecycle.

(* ------------------------------------------------------------------ *)
(** ** The further properties on concrete machines *)

Lemma connection_request_accepted_witness :
  type Case.request = MessageType.CONNECTION_REQUEST /\
  _state (self Sample.idle) <> ConnectionState.CONNECTED /\
  is_closed 2%nat (world Sample.idle) = false /\
  _current_session (self (run (Case.handle Case.request 2%nat true) Sample.idle)) =
    Some (session_for Sample.PORT Case.request 2%nat "amber-otter").
Proof.
  split; [reflexivity|]. split; [discriminate|]. split; [reflexivity|].
  apply (@connection_request_accepted Sample.PORT Sample.validate_passphrase
           Case.request 2%nat true Sample.idle);
    [reflexivity|discriminate|reflexivity].
Defined.

Lemma auth_attempt_without_session_witness :
  type Case.right_attempt = MessageType.AUTH_ATTEMPT /\
  _current_session (self Sample.idle) = None /\
  is_closed 2%nat (world Sample.idle) = false /\
  rejected_with "No active session" "NO_SESSION"
    (Case.handle Case.right_attempt 2%nat true) 2%nat Sample.idle.
Proof.
  split; [reflexivity|]. split; [reflexivity|]. split; [reflexivity|].
  apply (@auth_attempt_without_session Sample.PORT Sample.validate_passphrase
           Case.right_attempt 2%nat true Sample.idle); reflexivity.
Defined.

Lemma auth_attempt_accepted_witness :
  type Case.held_attempt = MessageType.AUTH_ATTEMPT /\
  _current_session (self Sample.challenged) = Some Sample.held /\
  session_id Case.held_attempt = cs_session_id Sample.held /\
  Sample.validate_passphrase
    (dict_get (payload Case.held_attempt) "passphrase" (VStr ""))
    (passphrase Sample.held) = true /\
  is_closed 1%nat (world Sample.challenged) = false /\
  _state (self (run (Case.handle Case.held_attempt 1%nat true) Sample.challenged)) =
    ConnectionState.CONNECTED.
Proof.
  split; [reflexivity|]. split; [reflexivity|]. split; [reflexivity|].
  split; [reflexivity|]. split; [reflexivity|].
  apply (@auth_attempt_accepted Sample.PORT Sample.validate_passphrase
           Case.held_attempt 1%nat true Sample.held Sample.challenged);
    reflexivity.
Defined.

Lemma responder_handshake_witness :
  type Case.request = MessageType.CONNECTION_REQUEST /\
  type Case.right_attempt = MessageType.AUTH_ATTEMPT /\
  session_id Case.right_attempt = session_id Case.request /\
  dict_get (payload Case.right_attempt) "passphrase" (VStr "") =
    VStr (next_secret Sample.idle) /\
  Sample.validate_passphrase (VStr (next_secret Sample.idle))
    (next_secret Sample.idle) = true /\
  _state (self Sample.idle) <> ConnectionState.CONNECTED /\
  is_closed 2%nat (world Sample.idle) = false /\
  _state (self (run (Case.handle Case.request 2%nat true ;;
                     Case.handle Case.right_attempt 2%nat true) Sample.idle)) =
    ConnectionState.CONNECTED.
Proof.
  split; [reflexivity|]. split; [reflexivity|]. split; [reflexivity|].
  split; [reflexivity|]. split; [reflexivity|]. split; [discriminate|].
  split; [reflexivity|].
  apply (@responder_handshake Sample.PORT Sample.validate_passphrase
           Case.request Case.right_attempt 2%nat Sample.idle);
    try reflexivity; discriminate.
Defined.

Lemma no_second_attempt_witness :
  type Case.request = MessageType.CONNECTION_REQUEST /\
  type Case.wrong_attempt = MessageType.AUTH_ATTEMPT /\
  type Case.right_attempt = MessageType.AUTH_ATTEMPT /\
  session_id Case.wrong_attempt = session_id Case.request /\
  Sample.validate_passphrase
    (dict_get (payload Case.wrong_attempt) "passphrase" (VStr ""))
    (next_secret Sample.idle) = false /\
  _state (self Sample.idle) <> ConnectionState.CONNECTED /\
  is_closed 2%nat (world Sample.idle) = false /\
  _state (self (run (Case.handle Case.request 2%nat true ;;
                     Case.handle Case.wrong_attempt 2%nat true ;;
                     Case.handle Case.right_attempt 2%nat true) Sample.idle)) =
    ConnectionState.DISCONNECTED.
Proof.
  split; [reflexivity|]. split; [reflexivity|]. split; [reflexivity|].
  split; [reflexivity|]. split; [reflexivity|]. split; [discriminate|].
  split; [reflexivity|].
  apply (@no_second_attempt Sample.PORT Sample.validate_passphrase
           Case.request Case.wrong_attempt Case.right_attempt 2%nat Sample.idle);
    try reflexivity; discriminate.
Defined.

Lemma wrong_attempt_while_connected_witness :
  type Case.held_wrong_attempt = MessageType.AUTH_ATTEMPT /\
  _state (self Sample.connected) = ConnectionState.CONNECTED /\
  _current_session (self Sample.connected) = Some Sample.held /\
  session_id Case.held_wrong_attempt = cs_session_id Sample.held /\
  Sample.validate_passphrase
    (dict_get (payload Case.held_wrong_attempt) "passphrase" (VStr ""))
    (passphrase Sample.held) = false /\
  is_closed 3%nat (world Sample.connected) = false /\
  _state (self (run (Case.handle Case.held_wrong_attempt 3%nat true)
                  Sample.connected)) = ConnectionState.DISCONNECTED.
Proof.
  split; [reflexivity|]. split; [reflexivity|]. split; [reflexivity|].
  split; [reflexivity|]. split; [reflexivity|]. split; [reflexivity|].
  apply (@wrong_attempt_while_connected Sample.PORT Sample.validate_passphrase
           Case.held_wrong_attempt 3%nat true Sample.held Sample.connected);
    reflexivity.
Defined.

Lemma connect_to_dials_witness :
  _state (self Sample.idle) = ConnectionState.DISCONNECTED /\
  dial (world Sample.idle) "10.0.0.7" 8765%Z = Return 9%nat /\
  is_closed 9%nat (world Sample.idle) = false /\
  outcome (connect_to "10.0.0.7" 8765%Z) Sample.idle = Return tt.
Proof.
  split; [reflexivity|]. split; [reflexivity|]. split; [reflexivity|].
  apply (@connect_to_dials "10.0.0.7" 8765%Z 9%nat Sample.idle); reflexivity.
Defined.

Lemma connect_to_fails_witness :
  _state (self Case.offline) = ConnectionState.DISCONNECTED /\
  dial (world Case.offline) "10.0.0.7" 8765%Z =
    Raise (Exception "connection refused") /\
  outcome (connect_to "10.0.0.7" 8765%Z) Case.offline = Return tt.
Proof.
  split; [reflexivity|]. split; [reflexivity|].
  apply (@connect_to_fails "10.0.0.7" 8765%Z "connection refused" Case.offline);
    reflexivity.
Defined.

Lemma error_state_needs_disconnect_witness :
  _state (self Case.offline) = ConnectionState.DISCONNECTED /\
  dial (world Case.offline) "10.0.0.7" 8765%Z =
    Raise (Exception "connection refused") /\
  no_effect (connect_to "10.0.0.8" 8765%Z)
    (run (connect_to "10.0.0.7" 8765%Z) Case.offline).
Proof.
  split; [reflexivity|]. split; [reflexivity|].
  apply (@error_state_needs_disconnect "10.0.0.7" 8765%Z "connection refused"
           "10.0.0.8" 8765%Z Case.offline); reflexivity.
Defined.

Lemma challenge_response_accepted_witness :
  type Case.challenge = MessageType.CHALLENGE_RESPONSE /\
  _state (self Sample.awaiting) = ConnectionState.AWAITING_CHALLENGE /\
  outcome (Case.handle Case.challenge 1%nat false) Sample.awaiting = Return tt.
Proof.
  split; [reflexivity|]. split; [reflexivity|].
  apply (@challenge_response_accepted Sample.PORT Sample.validate_passphrase
           Case.challenge 1%nat false Sample.awaiting); reflexivity.
Defined.

Lemma submit_passphrase_sends_witness :
  _state (self Case.prompted) = ConnectionState.AWAITING_AUTH_INPUT /\
  _current_session (self Case.prompted) = Some Sample.held /\
  _peer (self Case.prompted) = Some Sample.alice /\
  websocket Sample.alice = Some 1%nat /\
  is_closed 1%nat (world Case.prompted) = false /\
  outcome (submit_passphrase "amber-otter") Case.prompted = Return tt.
Proof.
  split; [reflexivity|]. split; [reflexivity|]. split; [reflexivity|].
  split; [reflexivity|]. split; [reflexivity|].
  apply (@submit_passphrase_sends "amber-otter" Sample.held Sample.alice 1%nat
           Case.prompted); reflexivity.
Defined.

Lemma submit_passphrase_elsewhere_witness :
  _state (self Sample.idle) <> ConnectionState.AWAITING_AUTH_INPUT /\
  no_effect (submit_passphrase "amber-otter") Sample.idle.
Proof.
  split; [discriminate|].
  apply (@submit_passphrase_elsewhere "amber-otter" Sample.idle). discriminate.
Defined.

Lemma auth_result_success_witness :
  type Case.good_result = MessageType.AUTH_RESULT /\
  truthy (dict_get (payload Case.good_result) "success" (VBool false)) = true /\
  outcome (Case.handle Case.good_result 1%nat false) Case.prompted = Return tt.
Proof.
  split; [reflexivity|]. split; [reflexivity|].
  apply (@auth_result_success Sample.PORT Sample.validate_passphrase
           Case.good_result 1%nat false Case.prompted); reflexivity.
Defined.

Lemma auth_result_failure_witness :
  type Case.bare_result = MessageType.AUTH_RESULT /\
  dict_has (payload Case.bare_result) "success" = false /\
  outcome (Case.handle Case.bare_result 1%nat false) Case.prompted = Return tt.
Proof.
  split; [reflexivity|]. split; [reflexivity|].
  apply (@auth_result_failure Sample.PORT Sample.validate_passphrase
           Case.bare_result 1%nat false Case.prompted);
    [reflexivity|left; reflexivity].
Defined.

Lemma initiator_handshake_witness :
  _state (self Sample.idle) = ConnectionState.DISCONNECTED /\
  dial (world Sample.idle) "10.0.0.7" 8765%Z = Return 9%nat /\
  is_closed 9%nat (world Sample.idle) = false /\
  type Case.challenge = MessageType.CHALLENGE_RESPONSE /\
  type Case.good_result = MessageType.AUTH_RESULT /\
  truthy (dict_get (payload Case.good_result) "success" (VBool false)) = true /\
  outcome (connect_to "10.0.0.7" 8765%Z ;;
           Case.handle Case.challenge 9%nat false ;;
           submit_passphrase "amber-otter" ;;
           Case.handle Case.good_result 9%nat false) Sample.idle = Return tt.
Proof.
  split; [reflexivity|]. split; [reflexivity|]. split; [reflexivity|].
  split; [reflexivity|]. split; [reflexivity|]. split; [reflexivity|].
  apply (@initiator_handshake Sample.PORT Sample.validate_passphrase
           "10.0.0.7" 8765%Z 9%nat Case.challenge "amber-otter"
           Case.good_result Sample.idle); reflexivity.
Defined.

Lemma send_notification_sends_witness :
  _state (self Sample.connected) = ConnectionState.CONNECTED /\
  _websocket (self Sample.connected) = Some 1%nat /\
  is_closed 1%nat (world Sample.connected) = false /\
  outcome (send_notification "hello" "world") Sample.connected = Return tt.
Proof.
  split; [reflexivity|]. split; [reflexivity|]. split; [reflexivity|].
  apply (@send_notification_sends "hello" "world" 1%nat Sample.connected);
    reflexivity.
Defined.

Lemma send_notification_elsewhere_witness :
  (_state (self Sample.idle) <> ConnectionState.CONNECTED \/
   _websocket (self Sample.idle) = None) /\
  no_effect (send_notification "hello" "world") Sample.idle.
Proof.
  split; [right; reflexivity|].
  apply (@send_notification_elsewhere "hello" "world" Sample.idle).
  right; reflexivity.
Defined.

Lemma notification_passed_on_witness :
  type Case.a_notification = MessageType.NOTIFICATION /\
  outcome (Case.handle Case.a_notification 1%nat true) Sample.connected =
    Return tt.
Proof.
  split; [reflexivity|].
  apply (@notification_passed_on Sample.PORT Sample.validate_passphrase
           Case.a_notification 1%nat true Sample.connected); reflexivity.
Defined.

Lemma disconnect_peer_says_goodbye_witness :
  _websocket (self Sample.connected) = Some 1%nat /\
  outcome disconnect_peer Sample.connected = Return tt.
Proof.
  split; [reflexivity|].
  apply (@disconnect_peer_says_goodbye 1%nat Sample.connected); reflexivity.
Defined.

Lemma heartbeat_on_closed_socket_witness :
  _state (self Case.cut_off) = ConnectionState.CONNECTED /\
  _websocket (self Case.cut_off) = Some 1%nat /\
  is_closed 1%nat (world Case.cut_off) = true /\
  outcome (ping_loop 0%nat [elapse 5]) Case.cut_off = Return Break.
Proof.
  split; [reflexivity|]. split; [reflexivity|]. split; [reflexivity|].
  refine (proj1 (@heartbeat_on_closed_socket 0%nat 1%nat (elapse 5) []
                   Case.cut_off _ _ _)); reflexivity.
Defined.

Lemma heartbeat_cancelled_in_its_sleep_witness :
  beating 0%nat 1%nat Sample.connected /\
  _ping_task (self Sample.connected) = Some 0%nat /\
  outcome (ping_loop 0%nat [fun m => run _handle_disconnect (elapse 5 m)])
    Sample.connected = Raise CancelledError.
Proof.
  split; [repeat split|]. split; [reflexivity|].
  apply (@heartbeat_cancelled_in_its_sleep 0%nat 1%nat 5 [] Sample.connected);
    [repeat split|reflexivity].
Defined.

Lemma heartbeat_needs_connection_witness :
  (_state (self Sample.idle) <> ConnectionState.CONNECTED \/
   _websocket (self Sample.idle) = None) /\
  ping_loop 0%nat [elapse 5] Sample.idle = (Return Break, Sample.idle).
Proof.
  split; [left; discriminate|].
  apply (@heartbeat_needs_connection 0%nat (elapse 5) [] Sample.idle).
  left; discriminate.
Defined.

Lemma start_once_witness :
  _running Case.down = false /\
  outcome (start Case.down (Return 4%nat)) Sample.idle =
    Return {| _server := Some 4%nat; _running := true |}.
Proof.
  split; [reflexivity|].
  apply (@start_once Case.down 4%nat (Return 5%nat) Sample.idle); reflexivity.
Defined.

Lemma start_that_cannot_bind_witness :
  _running Case.down = false /\
  start Case.down (Raise (Exception "address in use")) Sample.idle =
    (Raise (Exception "address in use"), Sample.idle).
Proof.
  split; [reflexivity|].
  apply (@start_that_cannot_bind Case.down (Exception "address in use")
           Sample.idle); reflexivity.
Defined.
